(** * Batching and dispatch of scan documents (cycode CLI)

    A shallow embedding of [cycode/cli/utils/scan_batch.py] and of
    [ScanClient.zipped_file_scan_sync] from [cycode/cyclient/scan_client.py],
    together with the properties of the batcher, of the dispatcher and of the
    synchronous scan request; and of the paths, the scan types and the
    paginated listing of detections of the same client. *)

From Stdlib Require Import ZArith NArith List Lia.
From stdpp Require Import gmap strings list fin_maps.

Local Open Scope Z_scope.

(** ** The fragment of Python the code relies on *)

Module Py.

(** Exceptions that the embedded code can raise. *)
Inductive exn : Type :=
| UnicodeEncodeError
| ValueError
| OtherError (name : string).

(** A computation either returns a value or raises. *)
Inductive result (A : Type) : Type :=
| Ok (a : A)
| Raise (e : exn).
Arguments Ok {A} a.
Arguments Raise {A} e.

#[global] Instance result_ret : MRet result := fun _ a => Ok a.
#[global] Instance result_bind : MBind result := fun _ _ f m =>
  match m with
  | Ok a => f a
  | Raise e => Raise e
  end.

Definition returns {A} (m : result A) : Prop := exists a, m = Ok a.

(** A [str] is a sequence of Unicode code points. *)
Definition str : Type := list N.

(** [bytes]: every element is below 256. *)
Definition bytes : Type := list N.

Definition is_surrogate (c : N) : bool :=
  ((0xD800 <=? c) && (c <=? 0xDFFF))%N.

(** One code point under [str.encode('UTF-8')] (strict error handler):
    lone surrogates are rejected. *)
Definition encode_utf8_char (c : N) : result bytes :=
  if (c <? 0x80)%N then
    Ok [c]
  else if (c <? 0x800)%N then
    Ok [N.lor 0xC0 (N.shiftr c 6); N.lor 0x80 (N.land c 0x3F)]
  else if is_surrogate c then
    Raise UnicodeEncodeError
  else if (c <? 0x10000)%N then
    Ok [N.lor 0xE0 (N.shiftr c 12);
        N.lor 0x80 (N.land (N.shiftr c 6) 0x3F);
        N.lor 0x80 (N.land c 0x3F)]
  else
    Ok [N.lor 0xF0 (N.shiftr c 18);
        N.lor 0x80 (N.land (N.shiftr c 12) 0x3F);
        N.lor 0x80 (N.land (N.shiftr c 6) 0x3F);
        N.lor 0x80 (N.land c 0x3F)].

Fixpoint encode_utf8 (s : str) : result bytes :=
  match s with
  | [] => Ok []
  | c :: s' =>
      b ← encode_utf8_char c;
      bs ← encode_utf8 s';
      Ok (b ++ bs)
  end.

(** [len] of a list, as a Python [int]. *)
Definition len {A} (l : list A) : Z := Z.of_nat (length l).

(** [x or d] where [x] is [None] or an [int]: [None] and [0] are falsy. *)
Definition int_or (x : option Z) (d : Z) : Z :=
  match x with
  | None => d
  | Some n => if n =? 0 then d else n
  end.

(** The literal [c * n]: [n] copies of the one-character string [c]. *)
Definition repeat_char (c : N) (n : nat) : str := repeat c n.

(** [min] on [int]. *)
Definition min (a b : Z) : Z := if b <? a then b else a.

(** [multiprocessing.pool.ThreadPool(processes=n)]: a pool needs at least
    one worker. *)
Definition ThreadPool (processes : Z) : result Z :=
  if processes <? 1 then Raise ValueError else Ok processes.

End Py.

Import Py(Ok, Raise).

(** ** Documents *)

(** Modelled from the spec: [cycode.cli.models.Document] is declared outside
    the embedded files; the data model gives it a path and a textual
    content, and the batcher only reads [content]. *)
Record Document : Type := mkDocument {
  path : string;
  content : Py.str;
}.

(** ** [split_documents_into_batches] *)

(** The body of the [for document in documents] loop, iterated over the
    remaining documents; [batches], [current_size] and [current_batch] are
    the loop's variables. *)
Fixpoint split_loop (max_size max_files_count : Z) (documents : list Document)
    (batches : list (list Document)) (current_size : Z)
    (current_batch : list Document)
  : Py.result (list (list Document) * Z * list Document) :=
  match documents with
  | [] => Ok (batches, current_size, current_batch)
  | document :: documents' =>
      encoded ← Py.encode_utf8 (content document);
      let document_size := Py.len encoded in
      if (current_size + document_size >? max_size)
         || (Py.len current_batch >=? max_files_count)
      then
        split_loop max_size max_files_count documents'
          (batches ++ [current_batch]) document_size [document]
      else
        split_loop max_size max_files_count documents'
          batches (current_size + document_size) (current_batch ++ [document])
  end.

Definition split_documents_into_batches (documents : list Document)
    (max_size max_files_count : Z) : Py.result (list (list Document)) :=
  '(batches, _, current_batch) ← split_loop max_size max_files_count documents [] 0 [];
  match current_batch with
  | [] => Ok batches
  | _ :: _ => Ok (batches ++ [current_batch])
  end.

(** ** Configuration constants *)

(** The module [cycode.cli.consts] is declared outside the embedded files;
    the constants read by the batcher and the dispatcher are its fields. *)
Record Consts : Type := mkConsts {
  DEFAULT_SCAN_BATCH_MAX_SIZE_IN_BYTES : Z;
  DEFAULT_SCAN_BATCH_MAX_FILES_COUNT : Z;
  SCAN_BATCH_MAX_SIZE_IN_BYTES : gmap string Z;
  SCAN_BATCH_SCANS_PER_CPU : Z;
  SCAN_BATCH_MAX_PARALLEL_SCANS : Z;
}.

(** ** [_get_threads_count] *)

(** [cpu_count] is what [os.cpu_count()] answers on the host: [None] when the
    number of CPUs cannot be determined. *)
Definition _get_threads_count (consts : Consts) (os_cpu_count : option Z) : Z :=
  let cpu_count := Py.int_or os_cpu_count 1 in
  Py.min (cpu_count * SCAN_BATCH_SCANS_PER_CPU consts)
         (SCAN_BATCH_MAX_PARALLEL_SCANS consts).

(** ** The progress bar *)

(** [BaseProgressBar] is an abstract class; the dispatcher calls two of its
    methods, each of which mutates the bar. *)
Class BaseProgressBar (Sec PB : Type) : Type := {
  set_section_length : Sec -> Z -> PB -> PB;
  update : Sec -> PB -> PB;
}.

(** A progress bar that records the calls it receives, oldest first. *)
Inductive ProgressBarCall (Sec : Type) : Type :=
| SetSectionLength (section : Sec) (length : Z)
| Update (section : Sec).
Arguments SetSectionLength {Sec} section length.
Arguments Update {Sec} section.

#[global] Instance RecordingProgressBar (Sec : Type)
  : BaseProgressBar Sec (list (ProgressBarCall Sec)) := {
  set_section_length section n calls := calls ++ [SetSectionLength section n];
  update section calls := calls ++ [Update section];
}.

(** ** [run_parallel_batched_scan] *)

Section Dispatcher.

Context {CliError LocalScanResult : Type}.
(** [ScanProgressBarSection] and its member [SCAN]. *)
Context {ScanProgressBarSection : Type} (SCAN : ScanProgressBarSection).
Context {PB : Type} `{!BaseProgressBar ScanProgressBarSection PB}.
(** Whatever [scan_function] reads and writes besides its argument. *)
Context {Env : Type}.

(** What [scan_function] returns: [(scan_id, err, result)], where [err] and
    [result] may be [None]; a [CliError] or a [LocalScanResult] is truthy. *)
Definition ScanOutcome : Type :=
  string * option CliError * option LocalScanResult.

Definition ScanFunction : Type :=
  list Document -> Env -> Py.result ScanOutcome * Env.

(** The loop [for scan_id, err, result in pool.imap(scan_function, batches)],
    in the sequential reading of [imap]: outcomes are produced, and consumed,
    in the order of [batches]. An exception of [scan_function] surfaces when
    its outcome is consumed. *)
Fixpoint imap_loop (scan_function : ScanFunction) (batches : list (list Document))
    (cli_errors : gmap string CliError) (local_scan_results : list LocalScanResult)
    (progress_bar : PB) (env : Env)
  : Py.result (gmap string CliError * list LocalScanResult) * PB * Env :=
  match batches with
  | [] => (Ok (cli_errors, local_scan_results), progress_bar, env)
  | batch :: batches' =>
      match scan_function batch env with
      | (Raise e, env) => (Raise e, progress_bar, env)
      | (Ok (scan_id, err, result), env) =>
          let local_scan_results :=
            match result with
            | Some r => local_scan_results ++ [r]
            | None => local_scan_results
            end in
          let cli_errors :=
            match err with
            | Some e => <[scan_id := e]> cli_errors
            | None => cli_errors
            end in
          let progress_bar := update SCAN progress_bar in
          imap_loop scan_function batches' cli_errors local_scan_results
            progress_bar env
      end
  end.

Definition run_parallel_batched_scan (consts : Consts) (os_cpu_count : option Z)
    (scan_function : ScanFunction) (scan_type : string)
    (documents : list Document) (progress_bar : PB) (env : Env)
  : Py.result (gmap string CliError * list LocalScanResult) * PB * Env :=
  let max_size :=
    default (DEFAULT_SCAN_BATCH_MAX_SIZE_IN_BYTES consts)
            (SCAN_BATCH_MAX_SIZE_IN_BYTES consts !! scan_type) in
  match split_documents_into_batches documents max_size
          (DEFAULT_SCAN_BATCH_MAX_FILES_COUNT consts) with
  | Raise e => (Raise e, progress_bar, env)
  | Ok batches =>
      let progress_bar := set_section_length SCAN (Py.len batches) progress_bar in
      match Py.ThreadPool (_get_threads_count consts os_cpu_count) with
      | Raise e => (Raise e, progress_bar, env)
      | Ok pool =>
          imap_loop scan_function batches ∅ [] progress_bar env
      end
  end.

(** The outcomes of [scan_function] on each batch in turn. *)
Fixpoint scan_all (scan_function : ScanFunction) (batches : list (list Document))
    (env : Env) : Py.result (list ScanOutcome) * Env :=
  match batches with
  | [] => (Ok [], env)
  | batch :: batches' =>
      match scan_function batch env with
      | (Raise e, env) => (Raise e, env)
      | (Ok outcome, env) =>
          match scan_all scan_function batches' env with
          | (Raise e, env) => (Raise e, env)
          | (Ok outcomes, env) => (Ok (outcome :: outcomes), env)
          end
      end
  end.

Definition scan_id_of (o : ScanOutcome) : string := o.1.1.
Definition err_of (o : ScanOutcome) : option CliError := o.1.2.
Definition result_of (o : ScanOutcome) : option LocalScanResult := o.2.

(** Exactly one of the error and the result is present. *)
Definition exactly_one (o : ScanOutcome) : Prop :=
  match err_of o, result_of o with
  | Some _, None | None, Some _ => True
  | _, _ => False
  end.

(** The error mapping after the outcomes have been consumed in order,
    starting from [cli_errors]: a later error replaces an earlier one
    recorded under the same id. *)
Definition collect_errors (outcomes : list ScanOutcome)
    (cli_errors : gmap string CliError) : gmap string CliError :=
  foldl (fun m o =>
           match err_of o with
           | Some e => <[scan_id_of o := e]> m
           | None => m
           end) cli_errors outcomes.

(** The size limit that the dispatcher hands to the batcher. *)
Definition max_size_for (consts : Consts) (scan_type : string) : Z :=
  match SCAN_BATCH_MAX_SIZE_IN_BYTES consts !! scan_type with
  | Some max_size => max_size
  | None => DEFAULT_SCAN_BATCH_MAX_SIZE_IN_BYTES consts
  end.

End Dispatcher.

(** ** [ScanClient.zipped_file_scan_sync] *)

Module ScanClient.

Section Client.

(** Values of a [scan_parameters] dictionary, HTTP responses, the network
    the HTTP client talks to, and the parsed result of a synchronous scan. *)
Context {JsonValue Response Net ScanResultsSyncFlow : Type}.

(** [json.dumps] on a dictionary with string keys. *)
Context (json_dumps : gmap string JsonValue -> string).
(** [consts.INFRA_CONFIGURATION_SCAN_TYPE] and [consts.SECRET_SCAN_TYPE]. *)
Context (INFRA_CONFIGURATION_SCAN_TYPE SECRET_SCAN_TYPE : string).
(** [configuration_manager.get_sync_scan_timeout_in_seconds()]. *)
Context (get_sync_scan_timeout_in_seconds : Z).
(** [models.ScanResultsSyncFlowSchema().load(response.json())]. *)
Context (load_sync_flow : Response -> Py.result ScanResultsSyncFlow).

Record ScanConfigBase : Type := mkScanConfig {
  get_service_name : string -> bool -> string;
  get_async_scan_type : string -> string;
  get_async_entity_type : string -> string;
}.

(** The keyword arguments of [CycodeClientBase.post] used by the
    synchronous flow. *)
Record PostRequest : Type := mkPostRequest {
  url_path : string;
  data_is_git_diff : bool;
  data_scan_parameters : string;
  files : string * (string * Py.bytes);
  hide_response_content_log : bool;
  timeout : Z;
}.

Record CycodeClientBase : Type := mkCycodeClient {
  post : PostRequest -> Net -> Py.result Response * Net;
}.

Record ScanClient : Type := mkScanClient {
  scan_cycode_client : CycodeClientBase;
  scan_config : ScanConfigBase;
  _hide_response_log : bool;
}.

Definition _SCAN_SERVICE_CONTROLLER_PATH : string := "api/v1/scan".
Definition _SCAN_SERVICE_CLI_CONTROLLER_PATH : string := "api/v1/cli-scan".

Definition get_scan_controller_path (self : ScanClient) (scan_type : string)
    (should_use_scan_service : bool) : string :=
  if negb should_use_scan_service
     && bool_decide (scan_type = INFRA_CONFIGURATION_SCAN_TYPE)
  then _SCAN_SERVICE_CONTROLLER_PATH
  else if negb should_use_scan_service
          && bool_decide (scan_type = SECRET_SCAN_TYPE)
  then _SCAN_SERVICE_CONTROLLER_PATH
  else _SCAN_SERVICE_CLI_CONTROLLER_PATH.

Definition get_scan_flow_type (should_use_sync_flow : bool) : string :=
  if should_use_sync_flow then "/sync" else "".

Definition get_scan_service_url_path (self : ScanClient) (scan_type : string)
    (should_use_scan_service should_use_sync_flow : bool) : string :=
  let service_path :=
    get_service_name (scan_config self) scan_type should_use_scan_service in
  let controller_path :=
    get_scan_controller_path self scan_type should_use_scan_service in
  let flow_type := get_scan_flow_type should_use_sync_flow in
  service_path +:+ "/" +:+ controller_path +:+ flow_type.

Definition get_zipped_file_scan_sync_url_path (self : ScanClient)
    (scan_type : string) : string :=
  let server_scan_type := get_async_scan_type (scan_config self) scan_type in
  let scan_service_url_path :=
    get_scan_service_url_path self scan_type true true in
  scan_service_url_path +:+ "/" +:+ server_scan_type +:+ "/repository".

(** [zip_file] stands for the bytes that [zip_file.read()] returns.
    [scan_parameters] is the caller's dictionary: the function returns its
    state after the call next to the result, and the state of the network
    after the request. *)
Definition zipped_file_scan_sync (self : ScanClient) (zip_file : Py.bytes)
    (scan_type : string) (scan_parameters : gmap string JsonValue)
    (is_git_diff : bool) (net : Net)
  : Py.result ScanResultsSyncFlow * gmap string JsonValue * Net :=
  let files := ("file", ("multiple_files_scan.zip", zip_file)) in
  let scan_parameters :=
    if bool_decide (is_Some (scan_parameters !! "report"))
    then delete "report" scan_parameters
    else scan_parameters in
  let request := {|
    url_path := get_zipped_file_scan_sync_url_path self scan_type;
    data_is_git_diff := is_git_diff;
    data_scan_parameters := json_dumps scan_parameters;
    files := files;
    hide_response_content_log := _hide_response_log self;
    timeout := get_sync_scan_timeout_in_seconds;
  |} in
  match post (scan_cycode_client self) request net with
  | (Raise e, net) => (Raise e, scan_parameters, net)
  | (Ok response, net) => (load_sync_flow response, scan_parameters, net)
  end.

(** The request that reaches the HTTP client for a given dictionary. *)
Definition sync_request (self : ScanClient) (zip_file : Py.bytes)
    (scan_type : string) (sent_parameters : gmap string JsonValue)
    (is_git_diff : bool) : PostRequest := {|
  url_path := get_zipped_file_scan_sync_url_path self scan_type;
  data_is_git_diff := is_git_diff;
  data_scan_parameters := json_dumps sent_parameters;
  files := ("file", ("multiple_files_scan.zip", zip_file));
  hide_response_content_log := _hide_response_log self;
  timeout := get_sync_scan_timeout_in_seconds;
|}.

(** *** Paths, scan types and detections *)

(** [consts.SCA_SCAN_TYPE] and [consts.SAST_SCAN_TYPE]. *)
Context (SCA_SCAN_TYPE SAST_SCAN_TYPE : string).
(** The method [get_detections_prefix] of the scan configuration. *)
Context (get_detections_prefix : ScanConfigBase -> string).
(** The elements of the JSON list that the detections endpoint answers. *)
Context {RawDetection : Type}.

(** [cycode.cli.exceptions.custom_exceptions.CycodeError]. *)
Record CycodeError : Type := mkCycodeError { message : string }.

Definition _DETECTIONS_SERVICE_CONTROLLER_PATH : string := "api/v1/detections".
Definition _DETECTIONS_SERVICE_CLI_CONTROLLER_PATH : string :=
  "api/v1/detections/cli".
Definition _POLICIES_SERVICE_CONTROLLER_PATH_V3 : string := "api/v3/policies".

Definition get_detections_service_controller_path (self : ScanClient)
    (scan_type : string) : string :=
  if bool_decide (scan_type = INFRA_CONFIGURATION_SCAN_TYPE)
  then _DETECTIONS_SERVICE_CONTROLLER_PATH
  else _DETECTIONS_SERVICE_CLI_CONTROLLER_PATH.

Definition get_zipped_file_scan_url_path (self : ScanClient)
    (scan_type : string) : string :=
  get_scan_service_url_path self scan_type false false +:+ "/zipped-file".

Definition get_zipped_file_scan_async_url_path (self : ScanClient)
    (scan_type : string) (should_use_sync_flow : bool) : string :=
  let async_scan_type := get_async_scan_type (scan_config self) scan_type in
  let async_entity_type := get_async_entity_type (scan_config self) scan_type in
  let scan_service_url_path :=
    get_scan_service_url_path self scan_type true should_use_sync_flow in
  scan_service_url_path +:+ "/" +:+ async_scan_type
    +:+ "/" +:+ async_entity_type.

Definition get_scan_details_path (self : ScanClient)
    (scan_type scan_id : string) : string :=
  get_scan_service_url_path self scan_type true false +:+ "/" +:+ scan_id.

Definition get_scan_report_url_path (self : ScanClient)
    (scan_id scan_type : string) : string :=
  get_scan_service_url_path self scan_type true false
    +:+ "/reportUrl/" +:+ scan_id.

Definition get_scan_aggregation_report_url_path (self : ScanClient)
    (aggregation_id scan_type : string) : string :=
  get_scan_service_url_path self scan_type true false
    +:+ "/reportUrlByAggregationId/" +:+ aggregation_id.

Definition get_report_scan_status_path (self : ScanClient)
    (scan_type scan_id : string) (should_use_scan_service : bool) : string :=
  get_scan_service_url_path self scan_type should_use_scan_service false
    +:+ "/" +:+ scan_id +:+ "/status".

Definition get_detection_rules_path (self : ScanClient) : string :=
  get_detections_prefix (scan_config self) +:+ "/"
    +:+ _POLICIES_SERVICE_CONTROLLER_PATH_V3 +:+ "/"
    +:+ "detection_rules/byIds".

Definition get_scan_detections_path (self : ScanClient)
    (scan_type : string) : string :=
  get_detections_prefix (scan_config self) +:+ "/"
    +:+ get_detections_service_controller_path self scan_type.

Definition get_scan_detections_list_path_suffix (scan_type : string) : string :=
  if bool_decide (scan_type = INFRA_CONFIGURATION_SCAN_TYPE)
  then ""
  else "/detections".

Definition get_scan_detections_list_path (self : ScanClient)
    (scan_type : string) : string :=
  get_scan_detections_path self scan_type
    +:+ get_scan_detections_list_path_suffix scan_type.

(** The dictionary literal of [_get_policy_type_by_scan_type]: of two equal
    keys the later one stays. *)
Definition scan_type_to_policy_type : gmap string string :=
  <[SAST_SCAN_TYPE := "SAST"]>
    (<[SECRET_SCAN_TYPE := "SecretDetection"]>
       (<[SCA_SCAN_TYPE := "SCA"]>
          (<[INFRA_CONFIGURATION_SCAN_TYPE := "IaC"]> ∅))).

Definition _get_policy_type_by_scan_type (scan_type : string)
  : CycodeError + string :=
  match scan_type_to_policy_type !! scan_type with
  | None => inl (mkCycodeError "Invalid scan type")
  | Some policy_type => inr policy_type
  end.

(** The static method [ScanClient.get_service_name]; the record field
    [get_service_name] is the method of the scan configuration. *)
Definition static_get_service_name (scan_type : string) : option string :=
  if bool_decide (scan_type = SECRET_SCAN_TYPE) then Some "secret"
  else if bool_decide (scan_type = INFRA_CONFIGURATION_SCAN_TYPE) then Some "iac"
  else if bool_decide (scan_type = SCA_SCAN_TYPE)
          || bool_decide (scan_type = SAST_SCAN_TYPE) then Some "scans"
  else None.

(** The keyword arguments of [CycodeClientBase.get] used to list raw
    detections; [params] is the dictionary with the keys [scan_id],
    [page_size] and [page_number]. *)
Record GetRequest : Type := mkGetRequest {
  get_url_path : string;
  params_scan_id : string;
  params_page_size : Z;
  params_page_number : Z;
  get_hide_response_content_log : bool;
}.

(** The method [get] of the HTTP client followed by [.json()] on its
    response, which for this endpoint is a list. *)
Context (get_json : CycodeClientBase -> GetRequest -> Net
                    -> Py.result (list RawDetection) * Net).

Definition page_size : Z := 200.

Definition detections_request (self : ScanClient) (scan_type scan_id : string)
    (page_number : Z) : GetRequest := {|
  get_url_path := get_scan_detections_list_path self scan_type;
  params_scan_id := scan_id;
  params_page_size := page_size;
  params_page_number := page_number;
  get_hide_response_content_log := _hide_response_log self;
|}.

(** The [while] loop of [get_scan_raw_detections]. The loop has no bound of
    its own: [fuel] bounds the number of times its condition is evaluated,
    and [None] means that it was still running when the fuel ran out. *)
Fixpoint get_scan_raw_detections_loop (fuel : nat) (self : ScanClient)
    (scan_type scan_id : string) (raw_detections : list RawDetection)
    (page_number last_response_size : Z) (net : Net)
  : option (Py.result (list RawDetection) * Net) :=
  match fuel with
  | O => None
  | S fuel' =>
      if (page_number =? 0) || (last_response_size =? page_size) then
        match get_json (scan_cycode_client self)
                (detections_request self scan_type scan_id page_number) net with
        | (Raise e, net) => Some (Raise e, net)
        | (Ok response, net) =>
            get_scan_raw_detections_loop fuel' self scan_type scan_id
              (raw_detections ++ response) (page_number + 1)
              (Py.len response) net
        end
      else Some (Ok raw_detections, net)
  end.

Definition get_scan_raw_detections (fuel : nat) (self : ScanClient)
    (scan_type scan_id : string) (net : Net)
  : option (Py.result (list RawDetection) * Net) :=
  get_scan_raw_detections_loop fuel self scan_type scan_id [] 0 0 net.

(** The server answers page [j] with [pages j], and the request moves the
    network from [net] to [tick net]. *)
Definition serves (self : ScanClient) (scan_type scan_id : string)
    (pages : nat -> list RawDetection) (tick : Net -> Net) (j : nat) : Prop :=
  forall net,
    get_json (scan_cycode_client self)
      (detections_request self scan_type scan_id (Z.of_nat j)) net
    = (Ok (pages j), tick net).

End Client.

End ScanClient.

(** ** Vocabulary of the properties *)

(** The content of the document has a UTF-8 encoding. *)
Definition encodable (d : Document) : Prop :=
  Py.returns (Py.encode_utf8 (content d)).

(** The UTF-8 byte length of the content of a document. *)
Definition document_size (d : Document) : Z :=
  match Py.encode_utf8 (content d) with
  | Ok encoded => Py.len encoded
  | Raise _ => 0
  end.

(** The sum of the UTF-8 byte lengths of the documents of a batch. *)
Definition batch_size (batch : list Document) : Z :=
  foldr (fun d acc => document_size d + acc) 0 batch.

(** [ceil(a / b)] for a positive [b]. *)
Definition ceil_div (a b : Z) : Z := (a + b - 1) / b.

(** The limits that a batch is meant to respect. *)
Definition within_limits (max_size max_files_count : Z)
    (batch : list Document) : Prop :=
  (batch_size batch <= max_size \/ length batch = 1%nat)
  /\ Py.len batch <= max_files_count.

Definition doc (name : string) (c : N) (n : nat) : Document :=
  mkDocument name (Py.repeat_char c n).

(** The bound on the number of batches in its original wording: at most the
    larger of [ceil(total_bytes / max_bytes)] and
    [ceil(doc_count / max_files)]. *)
Definition batch_count_bound_as_stated (documents : list Document)
    (max_size max_files_count : Z) : Prop :=
  forall batches,
    documents <> [] -> 0 < max_size -> 0 < max_files_count ->
    split_documents_into_batches documents max_size max_files_count = Ok batches ->
    Py.len batches
    <= Z.max (ceil_div (batch_size documents) max_size)
             (ceil_div (Py.len documents) max_files_count).

(** One iteration of the loop on a document that can be encoded, as a
    function of the loop variables. *)
Definition split_step (max_size max_files_count : Z) (d : Document)
    (st : list (list Document) * Z * list Document)
  : list (list Document) * Z * list Document :=
  let '(batches, current_size, current_batch) := st in
  if (current_size + document_size d >? max_size)
     || (Py.len current_batch >=? max_files_count)
  then (batches ++ [current_batch], document_size d, [d])
  else (batches, current_size + document_size d, current_batch ++ [d]).

(** The batches returned after the loop. *)
Definition close_last (st : list (list Document) * Z * list Document)
  : list (list Document) :=
  match st.2 with
  | [] => st.1.1
  | _ :: _ => st.1.1 ++ [st.2]
  end.

(** The accounting behind the bound on the number of batches. A batch is
    closed either because the next document would overflow [max_size]
    ([ks] counts those) or, failing that, because it is full ([kc]). Each
    closure of the first kind consumes more than [max_size] bytes out of a
    budget in which every byte counts twice; each closure of the second
    kind consumes [max_files_count] documents. *)
Definition count_invariant (max_size max_files_count : Z)
    (documents ds : list Document)
    (st : list (list Document) * Z * list Document) : Prop :=
  exists ks kc : Z,
    0 <= ks /\ 0 <= kc
    /\ Py.len st.1.1 = ks + kc
    /\ 0 <= st.1.2
    /\ ks * (max_size + 1) + st.1.2 + 2 * batch_size ds
       <= 2 * batch_size documents
    /\ kc * max_files_count + Py.len st.2 + Py.len ds <= Py.len documents
    /\ (st.2 = [] -> st.1.1 = []).

(** ** Examples *)

Definition example_consts : Consts := mkConsts 10 2 ∅ 1 5.

Definition example_documents : list Document :=
  [doc "a.txt" 120 5; doc "b.txt" 121 5; doc "c.txt" 122 15].

Definition example_batches : list (list Document) :=
  [[doc "a.txt" 120 5; doc "b.txt" 121 5]; [doc "c.txt" 122 15]].

(** A scan function that rejects batches of more than one file, names its
    outcome after the first file of the batch, and counts its calls. *)
Definition example_outcome (batch : list Document) : @ScanOutcome string nat :=
  (match batch with [] => "" | d :: _ => path d end,
   if 1 <? Py.len batch then Some "too many files" else None,
   if 1 <? Py.len batch then None else Some (length batch)).

Definition example_scan_function : @ScanFunction string nat nat :=
  fun batch calls => (Ok (example_outcome batch), S calls).

Definition example_pure_scan_function : @ScanFunction string nat unit :=
  fun batch env => (Ok (example_outcome batch), env).


(** Constants that leave the pool without a worker. *)
Definition example_consts_no_workers : Consts := mkConsts 10 2 ∅ 1 0.

(** A document whose content is a lone surrogate. *)
Definition example_unencodable_document : Document :=
  mkDocument "bad.txt" [0xD800%N].

(** A client for the examples: its configuration names every service
    [scans]; its [post] is not used. *)
Definition example_client : @ScanClient.ScanClient unit nat :=
  ScanClient.mkScanClient
    (ScanClient.mkCycodeClient
       (fun _ requests => (Raise (Py.OtherError "unused"), requests)))
    (ScanClient.mkScanConfig (fun _ _ => "scans") (fun scan_type => scan_type)
       (fun _ => "repository"))
    true.

(** A server that holds [detections], answers the page that a request asks
    for, and counts the requests. *)
Definition example_server (detections : list nat)
  : @ScanClient.CycodeClientBase unit nat -> ScanClient.GetRequest -> nat
    -> Py.result (list nat) * nat :=
  fun _ request requests =>
    (Ok (take 200
           (drop (200 * Z.to_nat (ScanClient.params_page_number request))
              detections)),
     S requests).

(** A server that answers every page with 200 items. *)
Definition example_endless_server
  : @ScanClient.CycodeClientBase unit nat -> ScanClient.GetRequest -> nat
    -> Py.result (list nat) * nat :=
  fun _ request requests => (Ok (repeat 0%nat 200), S requests).

(** A server that answers page 0 with 200 items and fails on page 1. *)
Definition example_failing_server
  : @ScanClient.CycodeClientBase unit nat -> ScanClient.GetRequest -> nat
    -> Py.result (list nat) * nat :=
  fun _ request requests =>
    if ScanClient.params_page_number request =? 0
    then (Ok (repeat 0%nat 200), S requests)
    else (Raise (Py.OtherError "ConnectionError"), S requests).

(** The error of the last outcome that carries one under [scan_id]. *)
Definition last_error {CliError LocalScanResult : Type} (scan_id : string)
    (outcomes : list (@ScanOutcome CliError LocalScanResult))
  : option CliError :=
  last (omap (fun o => if bool_decide (scan_id_of o = scan_id)
                       then err_of o else None) outcomes).

Ltac split_step_cases :=
  unfold split_step;
  match goal with
  | |- context [(?a >? ?b) || (?c >=? ?d)] =>
      destruct (Z.gtb_spec a b); destruct (Z.geb_spec c d); simpl
  end.

(** * Properties of the batcher *)

(** A content can be encoded exactly when it holds no lone surrogate. *)
Lemma encodable_iff_no_surrogate (d : Document) :
  encodable d <-> Forall (fun c => Py.is_surrogate c = false) (content d).
Proof.
  unfold encodable, Py.returns. induction (content d) as [|c s IH]; simpl.
  - split; [constructor | intros _; eexists; reflexivity].
  - unfold Py.encode_utf8_char.
    destruct (Py.is_surrogate c) eqn:Hsur.
    + assert ((c <? 0x80)%N = false /\ (c <? 0x800)%N = false) as [-> ->].
      { unfold Py.is_surrogate in Hsur.
        apply andb_true_iff in Hsur as [Hlo _].
        apply N.leb_le in Hlo. split; apply N.ltb_ge; lia. }
      simpl. split.
      * intros [a Ha]. discriminate Ha.
      * intros H. inversion H; congruence.
    + split.
      * intros [a Ha]. constructor; [exact Hsur|]. apply IH.
        destruct (Py.encode_utf8 s) as [bs|e]; [eexists; reflexivity|].
        repeat match type of Ha with
               | context [(?x <? ?y)%N] => destruct (x <? y)%N; simpl in Ha
               end; discriminate Ha.
      * intros H. inversion H as [|? ? _ Hs]; subst.
        apply IH in Hs as [bs ->].
        repeat match goal with
               | |- context [(?x <? ?y)%N] => destruct (x <? y)%N; simpl
               end; eexists; reflexivity.
Qed.

Section Batcher.

Variables max_size max_files_count : Z.

Lemma batch_size_app b1 b2 :
  batch_size (b1 ++ b2) = batch_size b1 + batch_size b2.
Proof.
  induction b1 as [|d b1 IH]; simpl; [reflexivity|].
  rewrite IH. lia.
Qed.

Lemma document_size_nonneg d : 0 <= document_size d.
Proof.
  unfold document_size. destruct (Py.encode_utf8 (content d)); unfold Py.len; lia.
Qed.

Lemma batch_size_nonneg b : 0 <= batch_size b.
Proof.
  induction b as [|d b IH]; simpl; [lia|].
  pose proof (document_size_nonneg d). lia.
Qed.

Lemma split_loop_cons d ds bs cs cur :
  encodable d ->
  split_loop max_size max_files_count (d :: ds) bs cs cur =
  let '(bs', cs', cur') :=
    split_step max_size max_files_count d (bs, cs, cur) in
  split_loop max_size max_files_count ds bs' cs' cur'.
Proof.
  intros [encoded He]. simpl. unfold document_size. rewrite He. simpl.
  destruct (_ || _); reflexivity.
Qed.

(** The loop rule: an invariant of every iteration holds of the loop's
    variables when the loop ends, and the loop does end without raising when
    every document can be encoded. *)
Lemma split_loop_invariant
    (I : list Document -> list (list Document) * Z * list Document -> Prop) :
  (forall d ds st,
     encodable d -> I (d :: ds) st ->
     I ds (split_step max_size max_files_count d st)) ->
  forall ds bs cs cur,
    Forall encodable ds ->
    I ds (bs, cs, cur) ->
    exists st, split_loop max_size max_files_count ds bs cs cur = Ok st
               /\ I [] st.
Proof.
  intros Hstep ds. induction ds as [|d ds IH]; intros bs cs cur Henc HI.
  - exists (bs, cs, cur). split; [reflexivity | exact HI].
  - inversion Henc as [|? ? Hd Hds]; subst.
    rewrite split_loop_cons by exact Hd.
    specialize (Hstep d ds (bs, cs, cur) Hd HI).
    destruct (split_step max_size max_files_count d (bs, cs, cur))
      as [[bs' cs'] cur'].
    apply IH; assumption.
Qed.

Lemma split_documents_into_batches_invariant
    (I : list Document -> list (list Document) * Z * list Document -> Prop)
    (documents : list Document) :
  (forall d ds st,
     encodable d -> I (d :: ds) st ->
     I ds (split_step max_size max_files_count d st)) ->
  Forall encodable documents ->
  I documents ([], 0, []) ->
  exists st,
    split_documents_into_batches documents max_size max_files_count
    = Ok (close_last st) /\ I [] st.
Proof.
  intros Hstep Henc HI.
  destruct (split_loop_invariant I Hstep documents [] 0 [] Henc HI)
    as [[[bs cs] cur] [Hrun Hfinal]].
  exists (bs, cs, cur). split; [|exact Hfinal].
  unfold split_documents_into_batches. rewrite Hrun. simpl.
  destruct cur; reflexivity.
Qed.

End Batcher.

Lemma concat_close_last st :
  concat (close_last st) = concat st.1.1 ++ st.2.
Proof.
  destruct st as [[bs cs] cur]. unfold close_last. simpl.
  destruct cur as [|d cur].
  - rewrite app_nil_r. reflexivity.
  - rewrite concat_app. simpl. rewrite app_nil_r. reflexivity.
Qed.

(** C1. Concatenating the returned batches in order gives back the list of
    documents: nothing is dropped, duplicated or reordered. The call returns
    whenever every content can be encoded. *)
Theorem split_concat_identity (documents : list Document)
    (max_size max_files_count : Z) :
  0 < max_size -> 0 < max_files_count ->
  Forall encodable documents ->
  exists batches,
    split_documents_into_batches documents max_size max_files_count = Ok batches
    /\ concat batches = documents.
Proof.
  intros _ _ Henc.
  destruct (split_documents_into_batches_invariant max_size max_files_count
              (fun ds st => concat st.1.1 ++ st.2 ++ ds = documents) documents)
    as [st [Hrun Hfinal]].
  - intros d ds [[bs cs] cur] _. simpl. intros <-.
    split_step_cases; rewrite ?concat_app; simpl;
      rewrite <- ?app_assoc; reflexivity.
  - exact Henc.
  - reflexivity.
  - exists (close_last st). split; [exact Hrun|].
    rewrite concat_close_last. rewrite app_nil_r in Hfinal. exact Hfinal.
Qed.

Lemma split_concat_identity_witness :
  exists batches,
    split_documents_into_batches
      [doc "a.txt" 120 5; doc "b.txt" 121 5; doc "c.txt" 122 15] 10 2
    = Ok batches
    /\ concat batches
       = [doc "a.txt" 120 5; doc "b.txt" 121 5; doc "c.txt" 122 15].
Proof.
  apply (split_concat_identity
           [doc "a.txt" 120 5; doc "b.txt" 121 5; doc "c.txt" 122 15] 10 2).
  - lia.
  - lia.
  - repeat constructor; eexists; vm_compute; reflexivity.
Defined.

Lemma within_limits_close_last max_size max_files_count st :
  Forall (within_limits max_size max_files_count) st.1.1 ->
  within_limits max_size max_files_count st.2 ->
  Forall (within_limits max_size max_files_count) (close_last st).
Proof.
  destruct st as [[bs cs] cur]. unfold close_last. simpl. intros Hbs Hcur.
  destruct cur; [exact Hbs|].
  apply Forall_app. split; [exact Hbs|]. constructor; [exact Hcur|constructor].
Qed.

(** C2. Every returned batch holds at most [max_files_count] documents, and
    either its contents total at most [max_size] bytes or it is made of a
    single document. *)
Theorem split_batches_within_limits (documents : list Document)
    (max_size max_files_count : Z) :
  0 < max_size -> 0 < max_files_count ->
  Forall encodable documents ->
  exists batches,
    split_documents_into_batches documents max_size max_files_count = Ok batches
    /\ Forall (fun batch =>
                 (batch_size batch <= max_size \/ length batch = 1%nat)
                 /\ Py.len batch <= max_files_count) batches.
Proof.
  intros Hsize Hcount Henc.
  destruct (split_documents_into_batches_invariant max_size max_files_count
              (fun _ st =>
                 Forall (within_limits max_size max_files_count) st.1.1
                 /\ st.1.2 = batch_size st.2
                 /\ within_limits max_size max_files_count st.2) documents)
    as [st [Hrun (Hbs & _ & Hcur)]].
  - intros d ds [[bs cs] cur] _. simpl. intros (Hbs & -> & Hcur).
    pose proof (document_size_nonneg d) as Hd.
    pose proof Hcur as [Hbytes Hlen].
    split_step_cases.
    all: try (split; [apply Forall_app; split;
                      [exact Hbs | constructor; [exact Hcur | constructor]]|];
              split; [simpl; lia|];
              split; [right; reflexivity | unfold Py.len; simpl; lia]).
    split; [exact Hbs|].
    split; [rewrite batch_size_app; simpl; lia|].
    split; [left; rewrite batch_size_app; simpl; lia|].
    unfold Py.len in *. rewrite length_app. simpl. lia.
  - exact Henc.
  - simpl. repeat split; try constructor; unfold Py.len; simpl; lia.
  - exists (close_last st). split; [exact Hrun|].
    apply within_limits_close_last; assumption.
Qed.

Lemma split_batches_within_limits_witness :
  exists batches,
    split_documents_into_batches
      [doc "a.txt" 120 5; doc "b.txt" 121 5; doc "c.txt" 122 15] 10 2
    = Ok batches
    /\ Forall (fun batch =>
                 (batch_size batch <= 10 \/ length batch = 1%nat)
                 /\ Py.len batch <= 2) batches.
Proof.
  apply (split_batches_within_limits
           [doc "a.txt" 120 5; doc "b.txt" 121 5; doc "c.txt" 122 15] 10 2).
  - lia.
  - lia.
  - repeat constructor; eexists; vm_compute; reflexivity.
Defined.

(** C8. The scenario of three documents of 5, 5 and 15 bytes under a limit
    of 10 bytes and 2 files: the first two share a batch, the third one,
    although larger than the limit, gets a batch of its own. *)
Theorem split_scenario_three_documents :
  split_documents_into_batches
    [doc "a.txt" 120 5; doc "b.txt" 121 5; doc "c.txt" 122 15] 10 2
  = Ok [[doc "a.txt" 120 5; doc "b.txt" 121 5]; [doc "c.txt" 122 15]].
Proof. vm_compute. reflexivity. Qed.

(** C3. Not every returned batch is non-empty: when the first document alone
    exceeds [max_size], the loop closes the still empty current batch and
    the result starts with an empty batch. *)
Theorem split_oversized_first_document_emits_empty_batch :
  split_documents_into_batches [doc "c.txt" 122 15] 10 2
  = Ok [[]; [doc "c.txt" 122 15]]
  /\ ~ (forall batches,
          split_documents_into_batches [doc "c.txt" 122 15] 10 2 = Ok batches ->
          Forall (fun batch => batch <> []) batches).
Proof.
  split; [vm_compute; reflexivity|].
  intros H. specialize (H _ eq_refl).
  inversion H as [|? ? Hhead _]. apply Hhead. reflexivity.
Qed.

(** Only that leading batch can be empty. *)
Lemma split_later_batches_nonempty (documents : list Document)
    (max_size max_files_count : Z) :
  Forall encodable documents ->
  exists batches,
    split_documents_into_batches documents max_size max_files_count = Ok batches
    /\ Forall (fun batch => batch <> []) (tail batches).
Proof.
  intros Henc.
  destruct (split_documents_into_batches_invariant max_size max_files_count
              (fun _ st =>
                 Forall (fun batch => batch <> []) (tail (st.1.1 ++ [st.2])))
              documents)
    as [[[bs cs] cur] [Hrun Htail]].
  - intros d ds [[bs cs] cur] _. simpl. intros Htail.
    assert (Forall (fun batch : list Document => batch <> [])
              (tail ((bs ++ [cur]) ++ [[d]]))) as Hclose.
    { destruct bs as [|b bs]; simpl in *.
      - repeat constructor. discriminate.
      - apply Forall_app. split; [exact Htail|].
        repeat constructor. discriminate. }
    split_step_cases; try exact Hclose.
    destruct bs as [|b bs]; simpl in *; [constructor|].
    apply Forall_app in Htail as [Hbs _].
    apply Forall_app. split; [exact Hbs|].
    repeat constructor. intros Hnil. destruct cur; discriminate Hnil.
  - exact Henc.
  - simpl. constructor.
  - exists (close_last (bs, cs, cur)). split; [exact Hrun|].
    unfold close_last. simpl in *.
    destruct cur as [|d cur]; [|exact Htail].
    destruct bs as [|b bs]; simpl in *; [constructor|].
    apply Forall_app in Htail as [_ Hlast].
    inversion Hlast as [|? ? Hnil _]. contradiction Hnil. reflexivity.
Qed.

Lemma ceil_div_upper a b : 0 < b -> a <= b * ceil_div a b.
Proof.
  intros Hb. unfold ceil_div.
  pose proof (Z.div_mod (a + b - 1) b ltac:(lia)) as Hdm.
  pose proof (Z.mod_pos_bound (a + b - 1) b Hb). lia.
Qed.

Lemma ceil_div_nonneg a b : 0 < b -> 0 <= a -> 0 <= ceil_div a b.
Proof.
  intros Hb Ha. unfold ceil_div. apply Z.div_pos; lia.
Qed.

(** C4, as stated: it fails for three documents of 6 bytes under a limit of
    10 bytes and 100 files, which come out as three batches although
    [ceil(18 / 10) = 2] and [ceil(3 / 100) = 1]. *)
Lemma batch_count_bound_as_stated_fails :
  ~ batch_count_bound_as_stated
      [doc "a.txt" 120 6; doc "b.txt" 121 6; doc "c.txt" 122 6] 10 100.
Proof.
  unfold batch_count_bound_as_stated. intros H.
  specialize (H [[doc "a.txt" 120 6]; [doc "b.txt" 121 6]; [doc "c.txt" 122 6]]).
  vm_compute in H.
  specialize (H ltac:(discriminate) eq_refl eq_refl eq_refl).
  apply H. reflexivity.
Qed.

Lemma count_invariant_step max_size max_files_count documents d ds st :
  0 < max_size -> 0 < max_files_count ->
  count_invariant max_size max_files_count documents (d :: ds) st ->
  count_invariant max_size max_files_count documents ds
    (split_step max_size max_files_count d st).
Proof.
  intros Hsize Hcount. unfold count_invariant.
  destruct st as [[bs cs] cur].
  intros (ks & kc & Hks & Hkc & Hlen & Hcs & Hbytes & Hdocs & Hempty).
  simpl in *.
  pose proof (document_size_nonneg d) as Hd.
  unfold Py.len in *. simpl length in Hdocs.
  unfold split_step.
  destruct (Z.gtb_spec (cs + document_size d) max_size) as [Hover|Hfits]; simpl.
  - exists (ks + 1), kc. simpl. rewrite length_app. simpl.
    repeat split; try lia. discriminate.
  - destruct (Z.geb_spec (Z.of_nat (length cur)) max_files_count) as [Hfull|Hroom];
      simpl.
    + exists ks, (kc + 1). simpl. rewrite length_app. simpl.
      repeat split; try lia. discriminate.
    + exists ks, kc. simpl. rewrite length_app. simpl.
      repeat split; try lia.
      intros Hnil. destruct cur; discriminate Hnil.
Qed.

(** C4, amended. The number of batches is at most
    [2 * ceil(total_bytes / max_bytes) + ceil(doc_count / max_files)]. *)
Theorem split_batch_count_bound (documents : list Document)
    (max_size max_files_count : Z) :
  0 < max_size -> 0 < max_files_count ->
  Forall encodable documents ->
  exists batches,
    split_documents_into_batches documents max_size max_files_count = Ok batches
    /\ Py.len batches
       <= 2 * ceil_div (batch_size documents) max_size
          + ceil_div (Py.len documents) max_files_count.
Proof.
  intros Hsize Hcount Henc.
  destruct (split_documents_into_batches_invariant max_size max_files_count
              (count_invariant max_size max_files_count documents) documents)
    as [[[bs cs] cur] [Hrun Hfinal]].
  - intros d ds st _. apply count_invariant_step; assumption.
  - exact Henc.
  - exists 0, 0. simpl. unfold Py.len. simpl. repeat split; lia.
  - exists (close_last (bs, cs, cur)). split; [exact Hrun|].
    destruct Hfinal as (ks & kc & Hks & Hkc & Hlen & Hcs & Hbytes & Hdocs & Hempty).
    simpl in *.
    pose proof (ceil_div_upper (batch_size documents) max_size Hsize) as Hc1.
    pose proof (ceil_div_upper (Py.len documents) max_files_count Hcount) as Hc2.
    pose proof (ceil_div_nonneg (batch_size documents) max_size Hsize
                  (batch_size_nonneg documents)) as Hn1.
    pose proof (ceil_div_nonneg (Py.len documents) max_files_count Hcount
                  ltac:(unfold Py.len; lia)) as Hn2.
    set (c1 := ceil_div (batch_size documents) max_size) in *.
    set (c2 := ceil_div (Py.len documents) max_files_count) in *.
    unfold close_last. simpl.
    destruct cur as [|d cur].
    + rewrite (Hempty eq_refl). unfold Py.len. simpl. lia.
    + unfold Py.len in *. rewrite length_app. simpl in *.
      assert (ks <= 2 * c1) by nia.
      assert (kc + 1 <= c2) by nia.
      lia.
Qed.

Lemma split_batch_count_bound_witness :
  exists batches,
    split_documents_into_batches
      [doc "a.txt" 120 6; doc "b.txt" 121 6; doc "c.txt" 122 6] 10 100
    = Ok batches
    /\ Py.len batches
       <= 2 * ceil_div
                (batch_size
                   [doc "a.txt" 120 6; doc "b.txt" 121 6; doc "c.txt" 122 6]) 10
          + ceil_div
              (Py.len [doc "a.txt" 120 6; doc "b.txt" 121 6; doc "c.txt" 122 6])
              100.
Proof.
  apply (split_batch_count_bound
           [doc "a.txt" 120 6; doc "b.txt" 121 6; doc "c.txt" 122 6] 10 100).
  - lia.
  - lia.
  - repeat constructor; eexists; vm_compute; reflexivity.
Defined.

(** * Properties of the dispatcher *)

(** C7. The number of workers is
    [min(cpu_count * SCAN_BATCH_SCANS_PER_CPU, SCAN_BATCH_MAX_PARALLEL_SCANS)]
    where [cpu_count] is 1 when the host does not tell; it never exceeds
    [SCAN_BATCH_MAX_PARALLEL_SCANS], and nothing about the batches enters
    it. *)
Theorem threads_count_is_capped (consts : Consts) (os_cpu_count : option Z) :
  _get_threads_count consts os_cpu_count
  = Z.min (match os_cpu_count with
           | None | Some 0 => 1
           | Some n => n
           end * SCAN_BATCH_SCANS_PER_CPU consts)
          (SCAN_BATCH_MAX_PARALLEL_SCANS consts)
  /\ _get_threads_count consts None
     = Z.min (1 * SCAN_BATCH_SCANS_PER_CPU consts)
             (SCAN_BATCH_MAX_PARALLEL_SCANS consts)
  /\ _get_threads_count consts os_cpu_count
     <= SCAN_BATCH_MAX_PARALLEL_SCANS consts.
Proof.
  unfold _get_threads_count, Py.min, Py.int_or.
  repeat split.
  - destruct os_cpu_count as [[| |]|]; simpl;
      match goal with |- context [?a <? ?b] => destruct (Z.ltb_spec a b) end;
      lia.
  - match goal with |- context [?a <? ?b] => destruct (Z.ltb_spec a b) end; lia.
  - match goal with |- context [?a <? ?b] => destruct (Z.ltb_spec a b) end; lia.
Qed.

Section DispatcherProperties.

Context {CliError LocalScanResult : Type}.
Context {ScanProgressBarSection : Type} (SCAN : ScanProgressBarSection).
Context {PB : Type} `{!BaseProgressBar ScanProgressBarSection PB}.
Context {Env : Type}.

Local Abbreviation ScanFunction := (@ScanFunction CliError LocalScanResult Env).
Local Abbreviation ScanOutcome := (@ScanOutcome CliError LocalScanResult).

Lemma scan_all_length (scan_function : ScanFunction) batches env outcomes env' :
  scan_all scan_function batches env = (Ok outcomes, env') ->
  length outcomes = length batches.
Proof.
  revert env outcomes. induction batches as [|b bs IH]; intros env outcomes; simpl.
  - intros [= <- _]. reflexivity.
  - destruct (scan_function b env) as [[o|e] env1]; [|discriminate].
    destruct (scan_all scan_function bs env1) as [[os|e] env2] eqn:Hrest;
      [|discriminate].
    intros [= <- <-]. simpl. f_equal. eapply IH. exact Hrest.
Qed.

(** What the loop computes when every call of [scan_function] returns. *)
Lemma imap_loop_returns (scan_function : ScanFunction) batches :
  forall cli_errors local_scan_results (progress_bar : PB) env outcomes env',
    scan_all scan_function batches env = (Ok outcomes, env') ->
    imap_loop SCAN scan_function batches cli_errors local_scan_results
      progress_bar env
    = (Ok (collect_errors outcomes cli_errors,
           local_scan_results ++ omap result_of outcomes),
       Nat.iter (length batches) (update SCAN) progress_bar,
       env').
Proof.
  induction batches as [|b bs IH]; intros errs res pb env outcomes env'; simpl.
  - intros [= <- <-]. simpl. rewrite app_nil_r. reflexivity.
  - destruct (scan_function b env) as [[[[scan_id err] result]|e] env1];
      [|discriminate].
    destruct (scan_all scan_function bs env1) as [[os|e] env2] eqn:Hrest;
      [|discriminate].
    intros [= <- <-].
    rewrite (IH _ _ _ _ _ _ Hrest).
    rewrite <- Nat.iter_succ_r. simpl.
    unfold result_of at 2. simpl.
    destruct result; simpl; rewrite <- ?app_assoc; reflexivity.
Qed.

Lemma max_size_for_default (consts : Consts) scan_type :
  default (DEFAULT_SCAN_BATCH_MAX_SIZE_IN_BYTES consts)
          (SCAN_BATCH_MAX_SIZE_IN_BYTES consts !! scan_type)
  = max_size_for consts scan_type.
Proof. unfold max_size_for. destruct (_ !! _); reflexivity. Qed.

(** The whole dispatch, when the batcher returns, a pool can be created and
    every call of [scan_function] returns. *)
Lemma run_parallel_batched_scan_returns (consts : Consts) os_cpu_count
    (scan_function : ScanFunction) scan_type documents (progress_bar : PB)
    env batches outcomes env' :
  split_documents_into_batches documents (max_size_for consts scan_type)
    (DEFAULT_SCAN_BATCH_MAX_FILES_COUNT consts) = Ok batches ->
  1 <= _get_threads_count consts os_cpu_count ->
  scan_all scan_function batches env = (Ok outcomes, env') ->
  run_parallel_batched_scan SCAN consts os_cpu_count scan_function scan_type
    documents progress_bar env
  = (Ok (collect_errors outcomes ∅, omap result_of outcomes),
     Nat.iter (length batches) (update SCAN)
       (set_section_length SCAN (Py.len batches) progress_bar),
     env').
Proof.
  intros Hsplit Hthreads Hscan.
  unfold run_parallel_batched_scan.
  rewrite max_size_for_default, Hsplit.
  unfold Py.ThreadPool.
  destruct (Z.ltb_spec (_get_threads_count consts os_cpu_count) 1); [lia|].
  rewrite (imap_loop_returns _ _ _ _ _ _ _ _ Hscan). reflexivity.
Qed.

Lemma collect_errors_size (outcomes : list ScanOutcome) :
  forall cli_errors : gmap string CliError,
    NoDup (scan_id_of <$> outcomes) ->
    (forall o, o ∈ outcomes -> cli_errors !! scan_id_of o = None) ->
    size (collect_errors outcomes cli_errors)
    = (size cli_errors + length (omap err_of outcomes))%nat.
Proof.
  induction outcomes as [|o os IH]; intros errs Hnodup Hfresh.
  - simpl. lia.
  - rewrite fmap_cons in Hnodup. apply NoDup_cons in Hnodup as [Hhead Hnodup].
    assert (forall o', o' ∈ os -> scan_id_of o' <> scan_id_of o) as Hne.
    { intros o' Hin Heq. apply Hhead. rewrite <- Heq.
      apply list_elem_of_fmap. exists o'. split; [reflexivity | exact Hin]. }
    unfold collect_errors. simpl. fold (collect_errors os).
    destruct (err_of o) as [e|] eqn:Herr; simpl.
    + unfold collect_errors in IH. rewrite IH.
      * rewrite map_size_insert_None; [unfold omap; lia|].
        apply Hfresh. left.
      * exact Hnodup.
      * intros o' Hin. rewrite lookup_insert_ne.
        -- apply Hfresh. right. exact Hin.
        -- intros Heq. apply (Hne o' Hin). symmetry. exact Heq.
    + unfold collect_errors in IH. rewrite IH.
      * reflexivity.
      * exact Hnodup.
      * intros o' Hin. apply Hfresh. right. exact Hin.
Qed.

Lemma exactly_one_count (outcomes : list ScanOutcome) :
  Forall exactly_one outcomes ->
  (length (omap err_of outcomes) + length (omap result_of outcomes))%nat
  = length outcomes.
Proof.
  induction 1 as [|o os Ho _ IH]; [reflexivity|].
  unfold exactly_one in Ho. simpl.
  unfold omap in *.
  destruct (err_of o), (result_of o); simpl; try contradiction; lia.
Qed.

(** C5. When every call of [scan_function] returns, each outcome carries
    exactly one of an error and a result, and the returned ids are pairwise
    distinct, the sizes of the returned error mapping and result list add up
    to the number of batches. *)
Theorem run_errors_plus_results (consts : Consts) os_cpu_count
    (scan_function : ScanFunction) scan_type documents (progress_bar : PB)
    env batches outcomes env' :
  split_documents_into_batches documents (max_size_for consts scan_type)
    (DEFAULT_SCAN_BATCH_MAX_FILES_COUNT consts) = Ok batches ->
  1 <= _get_threads_count consts os_cpu_count ->
  scan_all scan_function batches env = (Ok outcomes, env') ->
  Forall exactly_one outcomes ->
  NoDup (scan_id_of <$> outcomes) ->
  exists cli_errors local_scan_results progress_bar',
    run_parallel_batched_scan SCAN consts os_cpu_count scan_function scan_type
      documents progress_bar env
    = (Ok (cli_errors, local_scan_results), progress_bar', env')
    /\ (size cli_errors + length local_scan_results)%nat = length batches.
Proof.
  intros Hsplit Hthreads Hscan Hone Hids.
  eexists _, _, _. split.
  - eapply run_parallel_batched_scan_returns; eassumption.
  - rewrite collect_errors_size.
    + rewrite map_size_empty. simpl.
      rewrite exactly_one_count by exact Hone.
      eapply scan_all_length. exact Hscan.
    + exact Hids.
    + intros o _. apply lookup_empty.
Qed.

Lemma scan_all_pure (scan_function : ScanFunction) (f : list Document -> ScanOutcome) :
  (forall batch env, scan_function batch env = (Ok (f batch), env)) ->
  forall batches env, scan_all scan_function batches env = (Ok (f <$> batches), env).
Proof.
  intros Hpure batches env. induction batches as [|b bs IH]; simpl.
  - reflexivity.
  - rewrite Hpure, IH. reflexivity.
Qed.

Lemma omap_fmap_batches (f : list Document -> ScanOutcome)
    (batches : list (list Document)) :
  omap result_of (f <$> batches)
  = omap (fun batch => result_of (f batch)) batches.
Proof.
  induction batches as [|b bs IH]; [reflexivity|].
  rewrite fmap_cons. unfold omap in *. simpl. rewrite IH. reflexivity.
Qed.

(** C9. With a scan function that is a function of the batch alone, the
    returned results are the results that are present among its values on
    the batches, in the order of the batches. *)
Theorem run_results_in_batch_order (consts : Consts) os_cpu_count
    (scan_function : ScanFunction) (f : list Document -> ScanOutcome)
    scan_type documents (progress_bar : PB) env batches :
  (forall batch env, scan_function batch env = (Ok (f batch), env)) ->
  split_documents_into_batches documents (max_size_for consts scan_type)
    (DEFAULT_SCAN_BATCH_MAX_FILES_COUNT consts) = Ok batches ->
  1 <= _get_threads_count consts os_cpu_count ->
  exists cli_errors progress_bar',
    run_parallel_batched_scan SCAN consts os_cpu_count scan_function scan_type
      documents progress_bar env
    = (Ok (cli_errors, omap (fun batch => result_of (f batch)) batches),
       progress_bar', env).
Proof.
  intros Hpure Hsplit Hthreads.
  eexists _, _.
  erewrite run_parallel_batched_scan_returns;
    [| exact Hsplit | exact Hthreads | apply (scan_all_pure _ f Hpure)].
  rewrite omap_fmap_batches. reflexivity.
Qed.

End DispatcherProperties.

Lemma recording_updates {Sec : Type} (SCAN : Sec) (n : nat)
    (calls : list (ProgressBarCall Sec)) :
  Nat.iter n (update SCAN) calls = calls ++ repeat (Update SCAN) n.
Proof.
  induction n as [|n IH].
  - simpl. rewrite app_nil_r. reflexivity.
  - rewrite Nat.iter_succ, IH. simpl.
    rewrite <- app_assoc. f_equal.
    symmetry. apply repeat_cons.
Qed.

(** C6. The dispatcher sets the length of the [SCAN] section to the number of
    batches and then, when every call of [scan_function] returns, updates
    the section once per batch, whatever the outcomes are. This holds of
    every progress bar; a bar that records its calls receives exactly
    [set_section_length(SCAN, N)] followed by [N] times [update(SCAN)].
    Besides the bar, the state after the dispatch is the one left by the
    calls of [scan_function]. *)
Theorem run_progress_reporting {CliError LocalScanResult Sec Env : Type}
    (SCAN : Sec) (consts : Consts) (os_cpu_count : option Z)
    (scan_function : @ScanFunction CliError LocalScanResult Env)
    (scan_type : string) (documents : list Document) (env : Env)
    (batches : list (list Document))
    (outcomes : list (@ScanOutcome CliError LocalScanResult)) (env' : Env) :
  split_documents_into_batches documents (max_size_for consts scan_type)
    (DEFAULT_SCAN_BATCH_MAX_FILES_COUNT consts) = Ok batches ->
  1 <= _get_threads_count consts os_cpu_count ->
  scan_all scan_function batches env = (Ok outcomes, env') ->
  (forall (PB : Type) (bar : BaseProgressBar Sec PB) (progress_bar : PB),
     exists returned,
       run_parallel_batched_scan SCAN consts os_cpu_count scan_function
         scan_type documents progress_bar env
       = (Ok returned,
          Nat.iter (length batches) (update SCAN)
            (set_section_length SCAN (Py.len batches) progress_bar),
          env'))
  /\ (exists returned,
        run_parallel_batched_scan SCAN consts os_cpu_count scan_function
          scan_type documents ([] : list (ProgressBarCall Sec)) env
        = (Ok returned,
           SetSectionLength SCAN (Py.len batches)
             :: repeat (Update SCAN) (length batches),
           env')).
Proof.
  intros Hsplit Hthreads Hscan. split.
  - intros PB bar progress_bar. eexists.
    eapply run_parallel_batched_scan_returns; eassumption.
  - eexists.
    erewrite run_parallel_batched_scan_returns by eassumption.
    rewrite recording_updates. reflexivity.
Qed.

Lemma run_errors_plus_results_witness :
  exists cli_errors local_scan_results progress_bar',
    run_parallel_batched_scan tt example_consts (Some 4) example_scan_function
      "secret" example_documents ([] : list (ProgressBarCall unit)) 0%nat
    = (Ok (cli_errors, local_scan_results), progress_bar', 2%nat)
    /\ (size cli_errors + length local_scan_results)%nat
       = length example_batches.
Proof.
  apply (run_errors_plus_results tt example_consts (Some 4)
           example_scan_function "secret" example_documents [] 0%nat
           example_batches (example_outcome <$> example_batches) 2%nat).
  - vm_compute. reflexivity.
  - vm_compute. discriminate.
  - vm_compute. reflexivity.
  - repeat constructor.
  - apply (bool_decide_unpack _). vm_compute. reflexivity.
Defined.

Lemma run_results_in_batch_order_witness :
  exists cli_errors progress_bar',
    run_parallel_batched_scan tt example_consts None example_pure_scan_function
      "secret" example_documents ([] : list (ProgressBarCall unit)) tt
    = (Ok (cli_errors,
           omap (fun batch => result_of (example_outcome batch)) example_batches),
       progress_bar', tt).
Proof.
  apply (run_results_in_batch_order tt example_consts None
           example_pure_scan_function example_outcome "secret"
           example_documents [] tt example_batches).
  - intros batch env. reflexivity.
  - vm_compute. reflexivity.
  - vm_compute. discriminate.
Defined.

Lemma run_progress_reporting_witness :
  (forall (PB : Type) (bar : BaseProgressBar unit PB) (progress_bar : PB),
     exists returned,
       run_parallel_batched_scan tt example_consts (Some 4)
         example_scan_function "secret" example_documents progress_bar 0%nat
       = (Ok returned,
          Nat.iter (length example_batches) (update tt)
            (set_section_length tt (Py.len example_batches) progress_bar),
          2%nat))
  /\ (exists returned,
        run_parallel_batched_scan tt example_consts (Some 4)
          example_scan_function "secret" example_documents
          ([] : list (ProgressBarCall unit)) 0%nat
        = (Ok returned,
           SetSectionLength tt (Py.len example_batches)
             :: repeat (Update tt) (length example_batches),
           2%nat)).
Proof.
  apply (run_progress_reporting tt example_consts (Some 4)
           example_scan_function "secret" example_documents 0%nat
           example_batches (example_outcome <$> example_batches) 2%nat).
  - vm_compute. reflexivity.
  - vm_compute. discriminate.
  - vm_compute. reflexivity.
Defined.

(** * Properties of the synchronous scan request *)

Section ClientProperties.

Import ScanClient.

Context {JsonValue Response Net ScanResultsSyncFlow : Type}.
Context (json_dumps : gmap string JsonValue -> string).
Context (INFRA_CONFIGURATION_SCAN_TYPE SECRET_SCAN_TYPE : string).
Context (get_sync_scan_timeout_in_seconds : Z).
Context (load_sync_flow : Response -> Py.result ScanResultsSyncFlow).

Local Abbreviation call := (zipped_file_scan_sync json_dumps
  INFRA_CONFIGURATION_SCAN_TYPE SECRET_SCAN_TYPE
  get_sync_scan_timeout_in_seconds load_sync_flow).
Local Abbreviation request := (sync_request json_dumps
  INFRA_CONFIGURATION_SCAN_TYPE SECRET_SCAN_TYPE
  get_sync_scan_timeout_in_seconds).

Lemma zipped_file_scan_sync_unfold (self : @ScanClient Response Net)
    zip_file scan_type (scan_parameters : gmap string JsonValue)
    is_git_diff (net : Net) :
  call self zip_file scan_type scan_parameters is_git_diff net
  = let sent := delete "report" scan_parameters in
    let posted :=
      post (scan_cycode_client self)
        (request self zip_file scan_type sent is_git_diff) net in
    (match posted.1 with
     | Ok response => load_sync_flow response
     | Raise e => Raise e
     end, sent, posted.2).
Proof.
  unfold zipped_file_scan_sync, sync_request. simpl.
  assert ((if bool_decide (is_Some (scan_parameters !! "report"))
           then delete "report" scan_parameters else scan_parameters)
          = delete "report" scan_parameters) as ->.
  { case_bool_decide as Hin; [reflexivity|].
    symmetry. apply delete_id. apply eq_None_not_Some. exact Hin. }
  destruct (post _ _ net) as [[response|e] net']; reflexivity.
Qed.

(** C10. The call changes the dictionary of its caller: afterwards it has no
    key ['report'], every other key is bound as before, and the request
    that was posted carries the dictionary in that state. This holds
    whether the request succeeds or raises. *)
Theorem zipped_file_scan_sync_drops_report (self : @ScanClient Response Net)
    (zip_file : Py.bytes) (scan_type : string)
    (scan_parameters : gmap string JsonValue) (is_git_diff : bool) (net : Net) :
  let returned := call self zip_file scan_type scan_parameters is_git_diff net in
  let scan_parameters' := returned.1.2 in
  scan_parameters' !! "report" = None
  /\ (forall key, key <> "report" ->
        scan_parameters' !! key = scan_parameters !! key)
  /\ returned.2
     = (post (scan_cycode_client self)
          (request self zip_file scan_type scan_parameters' is_git_diff) net).2
  /\ data_scan_parameters
       (request self zip_file scan_type scan_parameters' is_git_diff)
     = json_dumps (delete "report" scan_parameters).
Proof.
  rewrite zipped_file_scan_sync_unfold. simpl.
  repeat split.
  - apply lookup_delete_eq.
  - intros key Hkey. apply lookup_delete_ne. congruence.
Qed.

End ClientProperties.

(** * Further properties of the batcher *)

Lemma encode_utf8_char_raises c e :
  Py.encode_utf8_char c = Raise e -> e = Py.UnicodeEncodeError.
Proof.
  unfold Py.encode_utf8_char.
  repeat match goal with
         | |- context [if ?b then _ else _] => destruct b
         end; congruence.
Qed.

Lemma encode_utf8_raises s e :
  Py.encode_utf8 s = Raise e -> e = Py.UnicodeEncodeError.
Proof.
  induction s as [|c s IH]; simpl; [discriminate|].
  destruct (Py.encode_utf8_char c) as [b|e'] eqn:Hc; simpl.
  - destruct (Py.encode_utf8 s) as [bs|e'']; simpl; [discriminate|].
    intros [= <-]. apply IH. reflexivity.
  - intros [= <-]. eapply encode_utf8_char_raises. exact Hc.
Qed.

Lemma split_loop_raises max_size max_files_count ds :
  forall bs cs cur,
    ~ Forall encodable ds ->
    split_loop max_size max_files_count ds bs cs cur
    = Raise Py.UnicodeEncodeError.
Proof.
  induction ds as [|d ds IH]; intros bs cs cur Hnot.
  - contradiction Hnot. constructor.
  - simpl. destruct (Py.encode_utf8 (content d)) as [encoded|e] eqn:Hd; simpl.
    + assert (~ Forall encodable ds) as Hds.
      { intros Hds. apply Hnot. constructor; [|exact Hds].
        exists encoded. exact Hd. }
      destruct (_ || _); apply IH; exact Hds.
    + rewrite (encode_utf8_raises _ _ Hd). reflexivity.
Qed.

Lemma all_encodable_or_not (ds : list Document) :
  Forall encodable ds \/ ~ Forall encodable ds.
Proof.
  induction ds as [|d ds [IH|IH]].
  - left. constructor.
  - destruct (Py.encode_utf8 (content d)) as [b|e] eqn:Hd.
    + left. constructor; [exists b; exact Hd | exact IH].
    + right. intros H. inversion H as [|? ? [a Ha] _]; subst. congruence.
  - right. intros H. inversion H. contradiction.
Qed.

(** X1. The batcher raises exactly when some content cannot be encoded, and
    then the exception is [UnicodeEncodeError]; otherwise it returns. *)
Theorem split_raises_iff_not_encodable (documents : list Document)
    (max_size max_files_count : Z) :
  (Py.returns (split_documents_into_batches documents max_size max_files_count)
   <-> Forall encodable documents)
  /\ (split_documents_into_batches documents max_size max_files_count
      = Raise Py.UnicodeEncodeError
      <-> ~ Forall encodable documents).
Proof.
  assert (Forall encodable documents ->
          Py.returns
            (split_documents_into_batches documents max_size max_files_count))
    as Hreturns.
  { intros Henc.
    destruct (split_documents_into_batches_invariant max_size max_files_count
                (fun _ _ => True) documents) as [st [Hrun _]]; auto.
    exists (close_last st). exact Hrun. }
  assert (~ Forall encodable documents ->
          split_documents_into_batches documents max_size max_files_count
          = Raise Py.UnicodeEncodeError) as Hraises.
  { intros Hnot. unfold split_documents_into_batches.
    rewrite split_loop_raises by exact Hnot. reflexivity. }
  split; split.
  - intros [bs Hbs].
    destruct (all_encodable_or_not documents) as [Hall|Hnot]; [exact Hall|].
    rewrite (Hraises Hnot) in Hbs. discriminate Hbs.
  - exact Hreturns.
  - intros Hraise Hall. destruct (Hreturns Hall) as [bs Hbs]. congruence.
  - exact Hraises.
Qed.

Lemma split_documents_unfold (documents : list Document) max_size max_files_count :
  split_documents_into_batches documents max_size max_files_count
  = match split_loop max_size max_files_count documents [] 0 [] with
    | Ok st => Ok (close_last st)
    | Raise e => Raise e
    end.
Proof.
  unfold split_documents_into_batches.
  destruct (split_loop _ _ _ _ _ _) as [[[bs cs] cur]|e]; simpl; [|reflexivity].
  destruct cur; reflexivity.
Qed.

(** After the first document the current batch is never empty again, so
    every batch closed from then on has documents. *)
Lemma split_loop_extends max_size max_files_count ds bs cs cur :
  Forall encodable ds -> cur <> [] ->
  exists ext cs' cur',
    split_loop max_size max_files_count ds bs cs cur = Ok (bs ++ ext, cs', cur')
    /\ Forall (fun batch => batch <> []) ext /\ cur' <> [].
Proof.
  intros Henc Hcur.
  destruct (split_loop_invariant max_size max_files_count
              (fun _ st => (exists ext, st.1.1 = bs ++ ext
                            /\ Forall (fun batch => batch <> []) ext)
                           /\ st.2 <> []) ) with (ds := ds) (bs := bs)
                           (cs := cs) (cur := cur)
    as [[[bs' cs'] cur'] [Hrun [[ext [Hbs Hext]] Hcur']]].
  - intros d ds' [[bs0 cs0] cur0] _. simpl. intros [[ext [-> Hext]] Hcur0].
    split_step_cases.
    all: try (split; [|discriminate]; exists (ext ++ [cur0]);
              split; [rewrite app_assoc; reflexivity|];
              apply Forall_app; split; [exact Hext|];
              constructor; [exact Hcur0 | constructor]).
    split; [exists ext; split; [reflexivity | exact Hext]|].
    intros Hnil. destruct cur0; discriminate Hnil.
  - exact Henc.
  - simpl. split; [|exact Hcur]. exists []. rewrite app_nil_r.
    split; [reflexivity | constructor].
  - simpl in *. subst bs'. exists ext, cs', cur'. auto.
Qed.

(** X2. Under a positive file limit, the first returned batch is empty
    exactly when the first document alone exceeds [max_size]; no later batch
    is ever empty. *)
Theorem split_first_batch_empty_iff (d : Document) (ds : list Document)
    (max_size max_files_count : Z) :
  0 < max_files_count ->
  Forall encodable (d :: ds) ->
  exists first rest,
    split_documents_into_batches (d :: ds) max_size max_files_count
    = Ok (first :: rest)
    /\ (first = [] <-> max_size < document_size d)
    /\ Forall (fun batch => batch <> []) rest.
Proof.
  intros Hcount Henc. inversion Henc as [|? ? Hd Hds]; subst.
  rewrite split_documents_unfold, split_loop_cons by exact Hd.
  unfold split_step. simpl. rewrite !Z.add_0_l.
  destruct (Z.gtb_spec (document_size d) max_size) as [Hover|Hfits];
    destruct (Z.geb_spec (Py.len (@nil Document)) max_files_count) as [Hbad|_];
    try (unfold Py.len in Hbad; simpl in Hbad; lia); simpl.
  - destruct (split_loop_extends max_size max_files_count ds [[]]
                (document_size d) [d] Hds ltac:(discriminate))
      as (ext & cs' & cur' & -> & Hext & Hcur').
    exists [], (ext ++ [cur']). unfold close_last. simpl.
    destruct cur' as [|c cur']; [contradiction Hcur'; reflexivity|].
    split; [reflexivity|]. split; [split; [intros _; lia | reflexivity]|].
    apply Forall_app. split; [exact Hext|]. repeat constructor. discriminate.
  - destruct (split_loop_extends max_size max_files_count ds []
                (document_size d) [d] Hds ltac:(discriminate))
      as (ext & cs' & cur' & -> & Hext & Hcur').
    unfold close_last. simpl.
    destruct cur' as [|c cur']; [contradiction Hcur'; reflexivity|].
    assert (Forall (fun batch : list Document => batch <> [])
              (ext ++ [c :: cur'])) as Hall.
    { apply Forall_app. split; [exact Hext|]. repeat constructor. discriminate. }
    destruct (ext ++ [c :: cur']) as [|first rest] eqn:Hlist.
    { destruct ext; discriminate Hlist. }
    inversion Hall as [|? ? Hfirst Hrest]; subst.
    exists first, rest. split; [reflexivity|].
    split; [|exact Hrest]. split; [intros ->; contradiction Hfirst; reflexivity|].
    lia.
Qed.

Lemma split_first_batch_empty_iff_witness :
  exists first rest,
    split_documents_into_batches
      (doc "c.txt" 122 15 :: [doc "a.txt" 120 5]) 10 2
    = Ok (first :: rest)
    /\ (first = [] <-> 10 < document_size (doc "c.txt" 122 15))
    /\ Forall (fun batch => batch <> []) rest.
Proof.
  apply (split_first_batch_empty_iff (doc "c.txt" 122 15) [doc "a.txt" 120 5]
           10 2).
  - lia.
  - repeat constructor; eexists; vm_compute; reflexivity.
Defined.

(** X3. Documents that fit together under both limits come back as one
    batch. *)
Theorem split_single_batch_when_all_fits (documents : list Document)
    (max_size max_files_count : Z) :
  documents <> [] ->
  batch_size documents <= max_size ->
  Py.len documents <= max_files_count ->
  Forall encodable documents ->
  split_documents_into_batches documents max_size max_files_count
  = Ok [documents].
Proof.
  intros Hne Hsize Hcount Henc.
  destruct (split_documents_into_batches_invariant max_size max_files_count
              (fun ds st => st.1.1 = [] /\ st.2 ++ ds = documents
                            /\ st.1.2 = batch_size st.2) documents)
    as [[[bs cs] cur] [Hrun (Hbs & Hcur & _)]].
  - intros d ds [[bs cs] cur] _. simpl. intros (-> & Hdocs & ->).
    assert (batch_size cur + document_size d <= max_size
            /\ Py.len cur < max_files_count) as [Hfit Hroom].
    { rewrite <- Hdocs in Hsize, Hcount.
      rewrite batch_size_app in Hsize. simpl in Hsize.
      pose proof (batch_size_nonneg ds).
      unfold Py.len in *. rewrite length_app in Hcount. simpl in Hcount.
      lia. }
    unfold split_step.
    destruct (Z.gtb_spec (batch_size cur + document_size d) max_size); [lia|].
    destruct (Z.geb_spec (Py.len cur) max_files_count); [lia|]. simpl.
    split; [reflexivity|].
    split; [rewrite <- app_assoc; exact Hdocs|].
    rewrite batch_size_app. simpl. lia.
  - exact Henc.
  - simpl. auto.
  - simpl in *. subst bs. rewrite app_nil_r in Hcur. subst cur.
    rewrite Hrun. unfold close_last. simpl.
    destruct documents; [contradiction Hne; reflexivity | reflexivity].
Qed.

Lemma split_single_batch_when_all_fits_witness :
  split_documents_into_batches [doc "a.txt" 120 5; doc "b.txt" 121 5] 10 2
  = Ok [[doc "a.txt" 120 5; doc "b.txt" 121 5]].
Proof.
  apply (split_single_batch_when_all_fits
           [doc "a.txt" 120 5; doc "b.txt" 121 5] 10 2).
  - discriminate.
  - vm_compute. discriminate.
  - vm_compute. discriminate.
  - repeat constructor; eexists; vm_compute; reflexivity.
Defined.

(** With a file limit of at most one, a current batch that holds a document
    is closed by every further document. *)
Lemma split_loop_always_closes max_size max_files_count ds :
  max_files_count <= 1 ->
  Forall encodable ds ->
  forall bs cs cur,
    cur <> [] ->
    exists st,
      split_loop max_size max_files_count ds bs cs cur = Ok st
      /\ close_last st = bs ++ [cur] ++ map (fun d => [d]) ds.
Proof.
  intros Hcount Henc. induction Henc as [|d ds Hd Hds IH]; intros bs cs cur Hcur.
  - exists (bs, cs, cur). split; [reflexivity|].
    unfold close_last. simpl. destruct cur; [contradiction Hcur|]; reflexivity.
  - rewrite split_loop_cons by exact Hd. unfold split_step.
    destruct (Z.geb_spec (Py.len cur) max_files_count) as [_|Hroom].
    + rewrite orb_true_r.
      destruct (IH (bs ++ [cur]) (document_size d) [d] ltac:(discriminate))
        as [st [Hrun Hclose]].
      exists st. split; [exact Hrun|]. rewrite Hclose. simpl.
      rewrite <- app_assoc. reflexivity.
    + destruct cur; [contradiction Hcur; reflexivity|].
      unfold Py.len in Hroom. simpl in Hroom. lia.
Qed.

(** X4. With [max_files_count = 1] every document gets a batch of its own;
    an empty batch comes first when the first document exceeds
    [max_size]. *)
Theorem split_one_file_per_batch (documents : list Document) (max_size : Z) :
  Forall encodable documents ->
  split_documents_into_batches documents max_size 1
  = Ok (match documents with
        | [] => []
        | d :: _ => if max_size <? document_size d then [[]] else []
        end ++ map (fun d => [d]) documents).
Proof.
  intros Henc. rewrite split_documents_unfold.
  destruct Henc as [|d ds Hd Hds]; [reflexivity|].
  rewrite split_loop_cons by exact Hd. unfold split_step. simpl.
  rewrite Z.add_0_l, orb_false_r, Z.gtb_ltb.
  destruct (max_size <? document_size d).
  - destruct (split_loop_always_closes max_size 1 ds ltac:(lia) Hds
                [[]] (document_size d) [d] ltac:(discriminate))
      as [st [-> ->]]. reflexivity.
  - destruct (split_loop_always_closes max_size 1 ds ltac:(lia) Hds
                [] (document_size d) [d] ltac:(discriminate))
      as [st [-> ->]]. reflexivity.
Qed.

Lemma split_one_file_per_batch_witness :
  split_documents_into_batches
    [doc "a.txt" 120 1; doc "b.txt" 121 1; doc "c.txt" 122 1] 100 1
  = Ok (match [doc "a.txt" 120 1; doc "b.txt" 121 1; doc "c.txt" 122 1] with
        | [] => []
        | d :: _ => if 100 <? document_size d then [[]] else []
        end ++ map (fun d => [d])
                 [doc "a.txt" 120 1; doc "b.txt" 121 1; doc "c.txt" 122 1]).
Proof.
  apply (split_one_file_per_batch
           [doc "a.txt" 120 1; doc "b.txt" 121 1; doc "c.txt" 122 1] 100).
  repeat constructor; eexists; vm_compute; reflexivity.
Defined.

(** X5. With a file limit of zero or less the batcher still returns: an
    empty batch first, then one batch per document. *)
Theorem split_nonpositive_file_limit (d : Document) (ds : list Document)
    (max_size max_files_count : Z) :
  max_files_count <= 0 ->
  Forall encodable (d :: ds) ->
  split_documents_into_batches (d :: ds) max_size max_files_count
  = Ok ([] :: map (fun d => [d]) (d :: ds)).
Proof.
  intros Hcount Henc. inversion Henc as [|? ? Hd Hds]; subst.
  rewrite split_documents_unfold, split_loop_cons by exact Hd.
  unfold split_step.
  destruct (Z.geb_spec (Py.len (@nil Document)) max_files_count) as [_|Hbad];
    [|unfold Py.len in Hbad; simpl in Hbad; lia].
  rewrite orb_true_r.
  destruct (split_loop_always_closes max_size max_files_count ds ltac:(lia) Hds
              ([] ++ [[]]) (document_size d) [d] ltac:(discriminate))
    as [st [-> ->]]. reflexivity.
Qed.

Lemma split_nonpositive_file_limit_witness :
  split_documents_into_batches (doc "a.txt" 120 5 :: [doc "b.txt" 121 5]) 10 0
  = Ok ([] :: map (fun d => [d]) (doc "a.txt" 120 5 :: [doc "b.txt" 121 5])).
Proof.
  apply (split_nonpositive_file_limit (doc "a.txt" 120 5) [doc "b.txt" 121 5]
           10 0).
  - lia.
  - repeat constructor; eexists; vm_compute; reflexivity.
Defined.

(** X6. The batcher is greedy: the first document of every batch could not
    have joined the batch before it, either because of its size or because
    that batch was full. *)
Theorem split_batches_are_maximal (documents : list Document)
    (max_size max_files_count : Z) :
  Forall encodable documents ->
  exists batches,
    split_documents_into_batches documents max_size max_files_count = Ok batches
    /\ forall (i : nat) (b : list Document) (d : Document) (b' : list Document),
         batches !! i = Some b ->
         batches !! S i = Some (d :: b') ->
         max_size < batch_size b + document_size d
         \/ max_files_count <= Py.len b.
Proof.
  intros Henc.
  set (maximal := fun l : list (list Document) =>
         forall (i : nat) b d b',
           l !! i = Some b -> l !! S i = Some (d :: b') ->
           max_size < batch_size b + document_size d
           \/ max_files_count <= Py.len b).
  destruct (split_documents_into_batches_invariant max_size max_files_count
              (fun _ st => st.1.2 = batch_size st.2
                           /\ (st.2 = [] -> st.1.1 = [])
                           /\ maximal (st.1.1 ++ [st.2])) documents)
    as [[[bs cs] cur] [Hrun (_ & Hempty & Hmax)]].
  - intros d ds [[bs cs] cur] _. simpl. intros (-> & Hempty & Hmax).
    unfold split_step.
    destruct ((batch_size cur + document_size d >? max_size)
              || (Py.len cur >=? max_files_count)) eqn:Hcond; simpl.
    + split; [simpl; lia|]. split; [discriminate|].
      intros i b d0 b0 Hi HSi.
      destruct (decide (S i < length (bs ++ [cur]))%nat) as [Hlt|Hge].
      * rewrite lookup_app_l in Hi by lia.
        rewrite lookup_app_l in HSi by lia.
        eapply Hmax; eassumption.
      * pose proof (lookup_lt_Some _ _ _ HSi) as Hbound.
        rewrite !length_app in Hbound. rewrite length_app in Hge.
        simpl in Hbound, Hge.
        assert (i = length bs) as -> by lia.
        rewrite lookup_app_l in Hi by (rewrite length_app; simpl; lia).
        rewrite lookup_app_r in Hi by lia.
        rewrite Nat.sub_diag in Hi. simpl in Hi. injection Hi as <-.
        rewrite lookup_app_r in HSi by (rewrite length_app; simpl; lia).
        rewrite length_app in HSi. simpl in HSi.
        replace (S (length bs) - (length bs + 1))%nat with 0%nat in HSi by lia.
        simpl in HSi. injection HSi as <- <-.
        apply orb_true_iff in Hcond as [Hover|Hfull].
        -- left. apply Z.gtb_lt in Hover. lia.
        -- right. apply Z.geb_le in Hfull. lia.
    + split; [rewrite batch_size_app; simpl; lia|].
      split; [intros Hnil; destruct cur; discriminate Hnil|].
      intros i b d0 b0 Hi HSi.
      pose proof (lookup_lt_Some _ _ _ HSi) as Hbound.
      rewrite length_app in Hbound. simpl in Hbound.
      destruct (decide (S i < length bs)%nat) as [Hlt|Hge].
      * rewrite lookup_app_l in Hi by lia.
        rewrite lookup_app_l in HSi by lia.
        apply (Hmax i b d0 b0); rewrite lookup_app_l by lia; assumption.
      * assert (S i = length bs) as Hlast by lia.
        rewrite lookup_app_l in Hi by lia.
        rewrite lookup_app_r in HSi by lia.
        rewrite Hlast, Nat.sub_diag in HSi. simpl in HSi.
        destruct cur as [|c cur].
        { rewrite (Hempty eq_refl) in Hlast. discriminate Hlast. }
        injection HSi as <- <-.
        apply (Hmax i b c cur).
        -- rewrite lookup_app_l by lia. exact Hi.
        -- rewrite lookup_app_r by lia.
           rewrite Hlast, Nat.sub_diag. reflexivity.
  - exact Henc.
  - simpl. split; [reflexivity|]. split; [reflexivity|].
    intros i b d b' _ HSi. destruct i; discriminate HSi.
  - exists (close_last (bs, cs, cur)). split; [exact Hrun|].
    unfold close_last. simpl in *.
    destruct cur as [|c cur]; [|exact Hmax].
    rewrite (Hempty eq_refl). intros i b d b' Hi. discriminate Hi.
Qed.

Lemma split_batches_are_maximal_witness :
  exists batches,
    split_documents_into_batches example_documents 10 2 = Ok batches
    /\ forall (i : nat) (b : list Document) (d : Document) (b' : list Document),
         batches !! i = Some b ->
         batches !! S i = Some (d :: b') ->
         10 < batch_size b + document_size d \/ 2 <= Py.len b.
Proof.
  apply (split_batches_are_maximal example_documents 10 2).
  repeat constructor; eexists; vm_compute; reflexivity.
Defined.

Lemma concat_length_snoc {A} (bs : list (list A)) (b : list A) :
  length (concat (bs ++ [b])) = (length (concat bs) + length b)%nat.
Proof. rewrite concat_app, length_app. simpl. rewrite app_nil_r. reflexivity. Qed.

(** X7. Under a positive file limit the number of batches is at least
    [ceil(doc_count / max_files)] and at most [doc_count + 1]. *)
Theorem split_batch_count_between (documents : list Document)
    (max_size max_files_count : Z) :
  0 < max_files_count ->
  Forall encodable documents ->
  exists batches,
    split_documents_into_batches documents max_size max_files_count = Ok batches
    /\ ceil_div (Py.len documents) max_files_count <= Py.len batches
    /\ Py.len batches <= Py.len documents + 1.
Proof.
  intros Hcount Henc.
  destruct (split_documents_into_batches_invariant max_size max_files_count
              (fun ds st =>
                 Py.len (concat st.1.1) <= max_files_count * Py.len st.1.1
                 /\ Py.len st.1.1 <= Py.len (concat st.1.1) + 1
                 /\ Py.len st.2 <= max_files_count
                 /\ Py.len (concat st.1.1) + Py.len st.2 + Py.len ds
                    = Py.len documents
                 /\ (st.2 = [] -> st.1.1 = [])) documents)
    as [[[bs cs] cur] [Hrun (Hfull & Hfew & Hcur & Hall & Hempty)]].
  - intros d ds [[bs cs] cur] _. simpl.
    intros (Hfull & Hfew & Hcur & Hall & Hempty).
    unfold Py.len in *. simpl length in Hall.
    unfold split_step.
    destruct ((cs + document_size d >? max_size)
              || (Z.of_nat (length cur) >=? max_files_count)) eqn:Hcond; simpl.
    + rewrite concat_length_snoc, length_app. simpl.
      repeat split; try lia; try discriminate.
      destruct cur as [|c cur]; [rewrite (Hempty eq_refl) in *|]; simpl; lia.
    + apply orb_false_iff in Hcond as [_ Hroom].
      rewrite Z.geb_leb in Hroom. apply Z.leb_gt in Hroom.
      rewrite length_app. simpl.
      repeat split; try lia.
      intros Hnil. destruct cur; discriminate Hnil.
  - exact Henc.
  - unfold Py.len. simpl. repeat split; lia.
  - exists (close_last (bs, cs, cur)). split; [exact Hrun|].
    simpl in *. unfold close_last. simpl.
    pose proof (ceil_div_upper (Py.len documents) max_files_count Hcount) as Hup.
    assert (forall count, Py.len documents <= max_files_count * count ->
                          ceil_div (Py.len documents) max_files_count <= count)
      as Hceil.
    { intros count Hle. unfold ceil_div.
      apply Z.lt_succ_r. apply Z.div_lt_upper_bound; lia. }
    unfold Py.len in *. simpl length in Hall.
    destruct cur as [|c cur].
    + rewrite (Hempty eq_refl) in *. simpl in *.
      split; [apply Hceil|]; lia.
    + rewrite length_app. simpl in *.
      split; [apply Hceil|]; lia.
Qed.

Lemma split_batch_count_between_witness :
  exists batches,
    split_documents_into_batches example_documents 10 2 = Ok batches
    /\ ceil_div (Py.len example_documents) 2 <= Py.len batches
    /\ Py.len batches <= Py.len example_documents + 1.
Proof.
  apply (split_batch_count_between example_documents 10 2).
  - lia.
  - repeat constructor; eexists; vm_compute; reflexivity.
Defined.

(** * Further properties of the dispatcher *)

(** X8. With positive constants and a host that reports no CPU count or a
    non-negative one, the number of workers is at least one, so that the
    pool can be created. *)
Theorem thread_pool_is_created (consts : Consts) (os_cpu_count : option Z) :
  1 <= SCAN_BATCH_SCANS_PER_CPU consts ->
  1 <= SCAN_BATCH_MAX_PARALLEL_SCANS consts ->
  (forall n, os_cpu_count = Some n -> 0 <= n) ->
  1 <= _get_threads_count consts os_cpu_count
  /\ Py.ThreadPool (_get_threads_count consts os_cpu_count)
     = Ok (_get_threads_count consts os_cpu_count).
Proof.
  intros Hper Hmax Hcpu.
  assert (1 <= _get_threads_count consts os_cpu_count) as Hthreads.
  { unfold _get_threads_count, Py.min, Py.int_or.
    destruct os_cpu_count as [n|].
    - specialize (Hcpu n eq_refl).
      destruct (Z.eqb_spec n 0);
        match goal with |- context [?a <? ?b] => destruct (Z.ltb_spec a b) end;
        nia.
    - match goal with |- context [?a <? ?b] => destruct (Z.ltb_spec a b) end;
        lia. }
  split; [exact Hthreads|].
  unfold Py.ThreadPool.
  destruct (Z.ltb_spec (_get_threads_count consts os_cpu_count) 1); [lia|].
  reflexivity.
Qed.

Lemma thread_pool_is_created_witness :
  1 <= _get_threads_count example_consts (Some 4)
  /\ Py.ThreadPool (_get_threads_count example_consts (Some 4))
     = Ok (_get_threads_count example_consts (Some 4)).
Proof.
  apply (thread_pool_is_created example_consts (Some 4)).
  - vm_compute. discriminate.
  - vm_compute. discriminate.
  - intros n [= <-]. lia.
Defined.

Section DispatcherFailures.

Context {CliError LocalScanResult : Type}.
Context {ScanProgressBarSection : Type} (SCAN : ScanProgressBarSection).
Context {PB : Type} `{!BaseProgressBar ScanProgressBarSection PB}.
Context {Env : Type}.

Local Abbreviation ScanFunction := (@ScanFunction CliError LocalScanResult Env).
Local Abbreviation ScanOutcome := (@ScanOutcome CliError LocalScanResult).



(** X10. When the number of workers is below one, the dispatch raises
    [ValueError] after the length of the [SCAN] section has been set:
    [scan_function] is never called and the bar is never updated. *)
Theorem run_without_workers (consts : Consts) os_cpu_count
    (scan_function : ScanFunction) scan_type documents (progress_bar : PB)
    env batches :
  split_documents_into_batches documents (max_size_for consts scan_type)
    (DEFAULT_SCAN_BATCH_MAX_FILES_COUNT consts) = Ok batches ->
  _get_threads_count consts os_cpu_count < 1 ->
  run_parallel_batched_scan SCAN consts os_cpu_count scan_function scan_type
    documents progress_bar env
  = (Raise Py.ValueError,
     set_section_length SCAN (Py.len batches) progress_bar, env).
Proof.
  intros Hsplit Hthreads.
  unfold run_parallel_batched_scan.
  rewrite max_size_for_default, Hsplit.
  unfold Py.ThreadPool.
  destruct (Z.ltb_spec (_get_threads_count consts os_cpu_count) 1); [|lia].
  reflexivity.
Qed.

(** X11. When some content cannot be encoded, the dispatch raises
    [UnicodeEncodeError] before touching the progress bar or calling
    [scan_function]. *)
Theorem run_on_unencodable_document (consts : Consts) os_cpu_count
    (scan_function : ScanFunction) scan_type documents (progress_bar : PB) env :
  ~ Forall encodable documents ->
  run_parallel_batched_scan SCAN consts os_cpu_count scan_function scan_type
    documents progress_bar env
  = (Raise Py.UnicodeEncodeError, progress_bar, env).
Proof.
  intros Hnot. unfold run_parallel_batched_scan.
  rewrite split_documents_unfold, split_loop_raises by exact Hnot.
  reflexivity.
Qed.

Lemma collect_errors_lookup (outcomes : list ScanOutcome) (scan_id : string) :
  forall cli_errors : gmap string CliError,
    collect_errors outcomes cli_errors !! scan_id
    = match last_error scan_id outcomes with
      | Some e => Some e
      | None => cli_errors !! scan_id
      end.
Proof.
  unfold last_error, collect_errors.
  induction outcomes as [|o os IH]; intros errs; [reflexivity|].
  simpl. rewrite IH. unfold omap.
  destruct (bool_decide_reflect (scan_id_of o = scan_id)) as [Heq|Hne].
  - destruct (err_of o) as [e|]; [|reflexivity].
    rewrite last_cons.
    destruct (last _); [reflexivity|].
    rewrite Heq. apply lookup_insert_eq.
  - destruct (last _); [reflexivity|].
    destruct (err_of o) as [e|]; [|reflexivity].
    apply lookup_insert_ne. exact Hne.
Qed.

(** X12. In the returned error mapping the last writer wins: an id is bound
    to the error of the last outcome that carries an error under that id,
    and unbound when no outcome does. *)
Theorem run_errors_last_writer_wins (consts : Consts) os_cpu_count
    (scan_function : ScanFunction) scan_type documents (progress_bar : PB)
    env batches outcomes env' :
  split_documents_into_batches documents (max_size_for consts scan_type)
    (DEFAULT_SCAN_BATCH_MAX_FILES_COUNT consts) = Ok batches ->
  1 <= _get_threads_count consts os_cpu_count ->
  scan_all scan_function batches env = (Ok outcomes, env') ->
  exists cli_errors local_scan_results progress_bar',
    run_parallel_batched_scan SCAN consts os_cpu_count scan_function scan_type
      documents progress_bar env
    = (Ok (cli_errors, local_scan_results), progress_bar', env')
    /\ forall scan_id, cli_errors !! scan_id = last_error scan_id outcomes.
Proof.
  intros Hsplit Hthreads Hscan.
  eexists _, _, _. split.
  - eapply run_parallel_batched_scan_returns; eassumption.
  - intros scan_id. rewrite collect_errors_lookup, lookup_empty.
    destruct (last_error scan_id outcomes); reflexivity.
Qed.

Lemma collect_errors_size_le (outcomes : list ScanOutcome) :
  forall cli_errors : gmap string CliError,
    (size (collect_errors outcomes cli_errors)
     <= size cli_errors + length (omap err_of outcomes))%nat.
Proof.
  unfold collect_errors.
  induction outcomes as [|o os IH]; intros errs; simpl; [lia|].
  unfold omap in *. simpl.
  destruct (err_of o) as [e|]; simpl; [|apply IH].
  etransitivity; [apply IH|].
  pose proof (map_size_insert (scan_id_of o) e errs) as Hsize.
  destruct (errs !! scan_id_of o); unfold id in Hsize; unfold list_omap in *; lia.
Qed.

Lemma omap_length_le {A B} (f : A -> option B) (l : list A) :
  (length (omap f l) <= length l)%nat.
Proof.
  induction l as [|a l IH]; simpl; [lia|].
  unfold omap in *. simpl. destruct (f a); simpl; lia.
Qed.

(** X13. Whatever the outcomes are, the dispatch returns at most one result
    and at most one error per batch; when no outcome carries both, the
    results and the errors together number at most the batches. *)
Theorem run_returns_at_most_one_per_batch (consts : Consts) os_cpu_count
    (scan_function : ScanFunction) scan_type documents (progress_bar : PB)
    env batches outcomes env' :
  split_documents_into_batches documents (max_size_for consts scan_type)
    (DEFAULT_SCAN_BATCH_MAX_FILES_COUNT consts) = Ok batches ->
  1 <= _get_threads_count consts os_cpu_count ->
  scan_all scan_function batches env = (Ok outcomes, env') ->
  exists cli_errors local_scan_results progress_bar',
    run_parallel_batched_scan SCAN consts os_cpu_count scan_function scan_type
      documents progress_bar env
    = (Ok (cli_errors, local_scan_results), progress_bar', env')
    /\ (size cli_errors <= length batches)%nat
    /\ (length local_scan_results <= length batches)%nat
    /\ (Forall (fun o => err_of o = None \/ result_of o = None) outcomes ->
        (size cli_errors + length local_scan_results <= length batches)%nat).
Proof.
  intros Hsplit Hthreads Hscan.
  eexists _, _, _. split.
  - eapply run_parallel_batched_scan_returns; eassumption.
  - pose proof (collect_errors_size_le outcomes ∅) as Herrs.
    rewrite map_size_empty in Herrs. simpl in Herrs.
    pose proof (omap_length_le err_of outcomes) as He.
    pose proof (omap_length_le result_of outcomes) as Hr.
    rewrite <- (scan_all_length _ _ _ _ _ Hscan).
    repeat split; try lia.
    intros Hone.
    assert (length (omap err_of outcomes) + length (omap result_of outcomes)
            <= length outcomes)%nat; [|lia].
    clear -Hone. induction Hone as [|o os Ho _ IH]; simpl; [lia|].
    unfold omap in *. simpl.
    destruct Ho as [-> | ->]; destruct (err_of o), (result_of o); simpl; lia.
Qed.

(** X14. Without documents the dispatch returns no error and no result: the
    [SCAN] section gets length zero, the bar is never updated and
    [scan_function] is never called. *)
Theorem run_without_documents (consts : Consts) os_cpu_count
    (scan_function : ScanFunction) scan_type (progress_bar : PB) env :
  1 <= _get_threads_count consts os_cpu_count ->
  run_parallel_batched_scan SCAN consts os_cpu_count scan_function scan_type
    [] progress_bar env
  = (Ok (∅, []), set_section_length SCAN 0 progress_bar, env).
Proof.
  intros Hthreads.
  rewrite (run_parallel_batched_scan_returns SCAN consts os_cpu_count
             scan_function scan_type [] progress_bar env [] [] env);
    [reflexivity | reflexivity | exact Hthreads | reflexivity].
Qed.

End DispatcherFailures.


Lemma run_without_workers_witness :
  run_parallel_batched_scan tt example_consts_no_workers (Some 4)
    example_scan_function "secret" example_documents
    ([] : list (ProgressBarCall unit)) 0%nat
  = (Raise Py.ValueError,
     set_section_length tt (Py.len example_batches) [], 0%nat).
Proof.
  apply (run_without_workers tt example_consts_no_workers (Some 4)
           example_scan_function "secret" example_documents [] 0%nat
           example_batches).
  - vm_compute. reflexivity.
  - vm_compute. reflexivity.
Defined.

Lemma run_on_unencodable_document_witness :
  run_parallel_batched_scan tt example_consts (Some 4) example_scan_function
    "secret" [doc "a.txt" 120 5; example_unencodable_document]
    ([] : list (ProgressBarCall unit)) 0%nat
  = (Raise Py.UnicodeEncodeError, [], 0%nat).
Proof.
  apply (run_on_unencodable_document tt example_consts (Some 4)
           example_scan_function "secret"
           [doc "a.txt" 120 5; example_unencodable_document] [] 0%nat).
  intros Hall. inversion Hall as [|? ? _ Hrest]; subst.
  inversion Hrest as [|? ? [encoded Hencoded] _]; subst.
  vm_compute in Hencoded. discriminate Hencoded.
Defined.

Lemma run_errors_last_writer_wins_witness :
  exists cli_errors local_scan_results progress_bar',
    run_parallel_batched_scan tt example_consts (Some 4) example_scan_function
      "secret" example_documents ([] : list (ProgressBarCall unit)) 0%nat
    = (Ok (cli_errors, local_scan_results), progress_bar', 2%nat)
    /\ forall scan_id,
         cli_errors !! scan_id
         = last_error scan_id (example_outcome <$> example_batches).
Proof.
  apply (run_errors_last_writer_wins tt example_consts (Some 4)
           example_scan_function "secret" example_documents [] 0%nat
           example_batches (example_outcome <$> example_batches) 2%nat).
  - vm_compute. reflexivity.
  - vm_compute. discriminate.
  - vm_compute. reflexivity.
Defined.

Lemma run_returns_at_most_one_per_batch_witness :
  exists cli_errors local_scan_results progress_bar',
    run_parallel_batched_scan tt example_consts (Some 4) example_scan_function
      "secret" example_documents ([] : list (ProgressBarCall unit)) 0%nat
    = (Ok (cli_errors, local_scan_results), progress_bar', 2%nat)
    /\ (size cli_errors <= length example_batches)%nat
    /\ (length local_scan_results <= length example_batches)%nat
    /\ (Forall (fun o => err_of o = None \/ result_of o = None)
          (example_outcome <$> example_batches) ->
        (size cli_errors + length local_scan_results
         <= length example_batches)%nat).
Proof.
  apply (run_returns_at_most_one_per_batch tt example_consts (Some 4)
           example_scan_function "secret" example_documents [] 0%nat
           example_batches (example_outcome <$> example_batches) 2%nat).
  - vm_compute. reflexivity.
  - vm_compute. discriminate.
  - vm_compute. reflexivity.
Defined.

Lemma run_without_documents_witness :
  run_parallel_batched_scan tt example_consts (Some 4) example_scan_function
    "secret" [] ([] : list (ProgressBarCall unit)) 0%nat
  = (Ok (∅, []), set_section_length tt 0 [], 0%nat).
Proof.
  apply (run_without_documents tt example_consts (Some 4)
           example_scan_function "secret" [] 0%nat).
  vm_compute. discriminate.
Defined.

(** * Further properties of the scan client *)

Lemma string_app_assoc (s1 s2 s3 : string) :
  (s1 +:+ s2) +:+ s3 = s1 +:+ s2 +:+ s3.
Proof.
  induction s1 as [|a s1 IH]; [reflexivity|].
  change (String a ((s1 +:+ s2) +:+ s3) = String a (s1 +:+ s2 +:+ s3)).
  rewrite IH. reflexivity.
Qed.

Section ClientPaths.

Import ScanClient.

Context {Response Net : Type}.
Context (INFRA_CONFIGURATION_SCAN_TYPE SECRET_SCAN_TYPE : string).
Context (SCA_SCAN_TYPE SAST_SCAN_TYPE : string).
Context (get_detections_prefix : ScanConfigBase -> string).

Local Abbreviation ScanClient := (@ScanClient Response Net).
Local Abbreviation get_zipped_file_scan_sync_url_path :=
  (ScanClient.get_zipped_file_scan_sync_url_path
  INFRA_CONFIGURATION_SCAN_TYPE SECRET_SCAN_TYPE).
Local Abbreviation get_zipped_file_scan_async_url_path :=
  (ScanClient.get_zipped_file_scan_async_url_path
  INFRA_CONFIGURATION_SCAN_TYPE SECRET_SCAN_TYPE).
Local Abbreviation get_scan_detections_list_path :=
  (ScanClient.get_scan_detections_list_path
  INFRA_CONFIGURATION_SCAN_TYPE get_detections_prefix).
Local Abbreviation _get_policy_type_by_scan_type :=
  (ScanClient._get_policy_type_by_scan_type
  INFRA_CONFIGURATION_SCAN_TYPE SECRET_SCAN_TYPE SCA_SCAN_TYPE SAST_SCAN_TYPE).
Local Abbreviation static_get_service_name :=
  (ScanClient.static_get_service_name
  INFRA_CONFIGURATION_SCAN_TYPE SECRET_SCAN_TYPE SCA_SCAN_TYPE SAST_SCAN_TYPE).

(** X15. The path of the synchronous scan always goes through the CLI
    controller and the [/sync] flow, whatever the scan type is, and it is
    the asynchronous path of the synchronous flow when the entity type of
    the scan type is [repository]. *)
Theorem sync_url_path_composition (self : ScanClient) (scan_type : string) :
  get_zipped_file_scan_sync_url_path self scan_type
  = get_service_name (scan_config self) scan_type true
      +:+ "/api/v1/cli-scan/sync/"
      +:+ get_async_scan_type (scan_config self) scan_type
      +:+ "/repository"
  /\ (get_async_entity_type (scan_config self) scan_type = "repository" ->
      get_zipped_file_scan_sync_url_path self scan_type
      = get_zipped_file_scan_async_url_path self scan_type true).
Proof.
  split.
  - unfold ScanClient.get_zipped_file_scan_sync_url_path, get_scan_service_url_path,
      get_scan_controller_path, get_scan_flow_type,
      _SCAN_SERVICE_CLI_CONTROLLER_PATH. simpl.
    rewrite !string_app_assoc. reflexivity.
  - intros Hentity.
    unfold ScanClient.get_zipped_file_scan_sync_url_path,
      ScanClient.get_zipped_file_scan_async_url_path.
    rewrite Hentity. reflexivity.
Qed.

(** X16. Detections are listed under [api/v1/detections] for an IaC scan and
    under [api/v1/detections/cli/detections] for every other scan type. *)
Theorem detections_list_path_cases (self : ScanClient) (scan_type : string) :
  get_scan_detections_list_path self scan_type
  = get_detections_prefix (scan_config self)
      +:+ (if bool_decide (scan_type = INFRA_CONFIGURATION_SCAN_TYPE)
           then "/api/v1/detections"
           else "/api/v1/detections/cli/detections").
Proof.
  unfold ScanClient.get_scan_detections_list_path, get_scan_detections_path,
    get_scan_detections_list_path_suffix,
    get_detections_service_controller_path,
    _DETECTIONS_SERVICE_CONTROLLER_PATH,
    _DETECTIONS_SERVICE_CLI_CONTROLLER_PATH.
  case_bool_decide; rewrite !string_app_assoc; reflexivity.
Qed.

Lemma policy_type_known_iff (scan_type : string) :
  is_Some (scan_type_to_policy_type INFRA_CONFIGURATION_SCAN_TYPE
             SECRET_SCAN_TYPE SCA_SCAN_TYPE SAST_SCAN_TYPE !! scan_type)
  <-> scan_type = INFRA_CONFIGURATION_SCAN_TYPE \/ scan_type = SCA_SCAN_TYPE
      \/ scan_type = SECRET_SCAN_TYPE \/ scan_type = SAST_SCAN_TYPE.
Proof.
  unfold scan_type_to_policy_type.
  rewrite !lookup_insert_is_Some', lookup_empty.
  pose proof (@is_Some_None string) as Hnone.
  intuition congruence.
Qed.

Lemma policy_type_raises_iff (scan_type : string) :
  _get_policy_type_by_scan_type scan_type
  = inl (mkCycodeError "Invalid scan type")
  <-> ~ (scan_type = INFRA_CONFIGURATION_SCAN_TYPE
         \/ scan_type = SCA_SCAN_TYPE
         \/ scan_type = SECRET_SCAN_TYPE \/ scan_type = SAST_SCAN_TYPE).
Proof.
  rewrite <- policy_type_known_iff.
  unfold ScanClient._get_policy_type_by_scan_type.
  destruct (scan_type_to_policy_type _ _ _ _ !! scan_type) as [p|].
  - split; [discriminate|]. intros H. contradiction H. eexists. reflexivity.
  - split; [|reflexivity]. intros _ [p Hp]. discriminate Hp.
Qed.

Lemma service_name_none_iff (scan_type : string) :
  static_get_service_name scan_type = None
  <-> ~ (scan_type = INFRA_CONFIGURATION_SCAN_TYPE
         \/ scan_type = SCA_SCAN_TYPE
         \/ scan_type = SECRET_SCAN_TYPE \/ scan_type = SAST_SCAN_TYPE).
Proof.
  unfold ScanClient.static_get_service_name.
  repeat case_bool_decide; simpl; intuition congruence.
Qed.

(** X17. [_get_policy_type_by_scan_type] raises [CycodeError('Invalid scan
    type')] exactly for the scan types other than the four known ones, and
    returns a policy type for those four. *)
Theorem policy_type_raises_iff_unknown (scan_type : string) :
  (_get_policy_type_by_scan_type scan_type
   = inl (mkCycodeError "Invalid scan type")
   <-> ~ (scan_type = INFRA_CONFIGURATION_SCAN_TYPE
          \/ scan_type = SCA_SCAN_TYPE
          \/ scan_type = SECRET_SCAN_TYPE \/ scan_type = SAST_SCAN_TYPE))
  /\ ((exists policy, _get_policy_type_by_scan_type scan_type = inr policy)
      <-> (scan_type = INFRA_CONFIGURATION_SCAN_TYPE
           \/ scan_type = SCA_SCAN_TYPE
           \/ scan_type = SECRET_SCAN_TYPE \/ scan_type = SAST_SCAN_TYPE)).
Proof.
  split; [apply policy_type_raises_iff|].
  rewrite <- policy_type_known_iff.
  unfold ScanClient._get_policy_type_by_scan_type.
  destruct (scan_type_to_policy_type _ _ _ _ !! scan_type) as [p|].
  - split; intros _; eexists; reflexivity.
  - split; intros [p Hp]; discriminate Hp.
Qed.

(** X18. The static [get_service_name] and [_get_policy_type_by_scan_type]
    know the same scan types: the first answers [None] exactly when the
    second raises. *)
Theorem service_name_none_iff_policy_type_raises (scan_type : string) :
  static_get_service_name scan_type = None
  <-> _get_policy_type_by_scan_type scan_type
      = inl (mkCycodeError "Invalid scan type").
Proof.
  rewrite service_name_none_iff, policy_type_raises_iff. reflexivity.
Qed.

End ClientPaths.

Section ClientPagination.

Import ScanClient.

Context {Response Net RawDetection : Type}.
Context (INFRA_CONFIGURATION_SCAN_TYPE : string).
Context (get_detections_prefix : ScanConfigBase -> string).
Context (get_json : @CycodeClientBase Response Net -> GetRequest -> Net
                    -> Py.result (list RawDetection) * Net).

Local Abbreviation ScanClient := (@ScanClient Response Net).
Local Abbreviation detections_request := (ScanClient.detections_request
  INFRA_CONFIGURATION_SCAN_TYPE get_detections_prefix).
Local Abbreviation get_scan_raw_detections_loop :=
  (ScanClient.get_scan_raw_detections_loop
  INFRA_CONFIGURATION_SCAN_TYPE get_detections_prefix get_json).
Local Abbreviation get_scan_raw_detections :=
  (ScanClient.get_scan_raw_detections
  INFRA_CONFIGURATION_SCAN_TYPE get_detections_prefix get_json).
Local Abbreviation serves := (ScanClient.serves
  INFRA_CONFIGURATION_SCAN_TYPE get_detections_prefix get_json).

Lemma loop_until_short_page (self : ScanClient) scan_type scan_id pages tick :
  forall (k n : nat) raw last fuel net,
    (n = 0%nat \/ last = page_size) ->
    (forall j, (j <= k)%nat -> serves self scan_type scan_id pages tick (n + j)) ->
    (forall j, (j < k)%nat -> Py.len (pages (n + j)%nat) = page_size) ->
    Py.len (pages (n + k)%nat) <> page_size ->
    (k + 2 <= fuel)%nat ->
    get_scan_raw_detections_loop fuel self scan_type scan_id raw (Z.of_nat n) last net
    = Some (Ok (raw ++ concat (pages <$> seq n (S k))),
            Nat.iter (S k) tick net).
Proof.
  induction k as [|k IH]; intros n raw last fuel net Hfirst Hserves Hfull Hshort Hfuel.
  - destruct fuel as [|[|fuel]]; try lia.
    cbn [ScanClient.get_scan_raw_detections_loop].
    assert ((Z.of_nat n =? 0) || (last =? page_size) = true) as ->.
    { destruct Hfirst as [-> | ->]; [reflexivity|].
      rewrite Z.eqb_refl. apply orb_true_r. }
    pose proof (Hserves 0%nat ltac:(lia) net) as Hget.
    rewrite Nat.add_0_r in Hget, Hshort. rewrite Hget.
    assert ((Z.of_nat n + 1 =? 0) || (Py.len (pages n) =? page_size) = false)
      as ->.
    { apply orb_false_iff. split; [apply Z.eqb_neq; lia|].
      apply Z.eqb_neq. exact Hshort. }
    simpl. rewrite app_nil_r. reflexivity.
  - destruct fuel as [|fuel]; try lia.
    cbn [ScanClient.get_scan_raw_detections_loop].
    assert ((Z.of_nat n =? 0) || (last =? page_size) = true) as ->.
    { destruct Hfirst as [-> | ->]; [reflexivity|].
      rewrite Z.eqb_refl. apply orb_true_r. }
    pose proof (Hserves 0%nat ltac:(lia) net) as Hget.
    rewrite Nat.add_0_r in Hget. rewrite Hget.
    replace (Z.of_nat n + 1) with (Z.of_nat (S n)) by lia.
    rewrite (IH (S n)).
    + rewrite <- Nat.iter_succ_r. f_equal. f_equal. f_equal.
      rewrite <- app_assoc. reflexivity.
    + right. specialize (Hfull 0%nat ltac:(lia)).
      rewrite Nat.add_0_r in Hfull. exact Hfull.
    + intros j Hj. replace (S n + j)%nat with (n + S j)%nat by lia.
      apply Hserves. lia.
    + intros j Hj. replace (S n + j)%nat with (n + S j)%nat by lia.
      apply Hfull. lia.
    + replace (S n + k)%nat with (n + S k)%nat by lia. exact Hshort.
    + lia.
Qed.

(** X19. The function asks for pages 0, 1, 2, ... and stops after the first
    page whose size is not the page size of 200: it returns the pages up to
    that one, concatenated in order, after one request per page. *)
Theorem raw_detections_stop_at_short_page (self : ScanClient)
    (scan_type scan_id : string) (pages : nat -> list RawDetection)
    (tick : Net -> Net) (k fuel : nat) (net : Net) :
  (forall j, (j <= k)%nat -> serves self scan_type scan_id pages tick j) ->
  (forall j, (j < k)%nat -> Py.len (pages j) = 200) ->
  Py.len (pages k) <> 200 ->
  (k + 2 <= fuel)%nat ->
  get_scan_raw_detections fuel self scan_type scan_id net
  = Some (Ok (concat (pages <$> seq 0 (S k))), Nat.iter (S k) tick net).
Proof.
  intros Hserves Hfull Hshort Hfuel.
  unfold ScanClient.get_scan_raw_detections.
  apply (loop_until_short_page self scan_type scan_id pages tick k 0 [] 0 fuel net);
    auto.
Qed.

Lemma concat_pages {A} (l : list A) (size k : nat) :
  concat ((fun j => take size (drop (size * j) l)) <$> seq 0 k)
  = take (size * k) l.
Proof.
  induction k as [|k IH].
  - rewrite Nat.mul_0_r. reflexivity.
  - rewrite seq_S, fmap_app, concat_app, IH. simpl.
    rewrite app_nil_r, take_take_drop. f_equal. lia.
Qed.

(** X20. Against a server that holds a list of detections and answers page
    [j] with its slice [200 * j, 200 * j + 200), the function returns the
    whole list, after [len / 200 + 1] requests: one more than needed when
    the length is a multiple of 200. *)
Theorem raw_detections_collects_all_pages (self : ScanClient)
    (scan_type scan_id : string) (detections : list RawDetection)
    (tick : Net -> Net) (fuel : nat) (net : Net) :
  (forall j, serves self scan_type scan_id
               (fun j => take 200 (drop (200 * j) detections)) tick j) ->
  (length detections / 200 + 2 <= fuel)%nat ->
  get_scan_raw_detections fuel self scan_type scan_id net
  = Some (Ok detections, Nat.iter (length detections / 200 + 1) tick net).
Proof.
  intros Hserves Hfuel.
  set (k := (length detections / 200)%nat) in *.
  pose proof (Nat.div_mod_eq (length detections) 200) as Hdiv.
  pose proof (Nat.mod_upper_bound (length detections) 200 ltac:(lia)) as Hmod.
  fold k in Hdiv.
  unfold ScanClient.get_scan_raw_detections.
  transitivity
    (Some (Ok ([] ++ concat ((fun j => take 200 (drop (200 * j) detections))
                             <$> seq 0 (S k))),
           Nat.iter (S k) tick net)).
  2: { rewrite concat_pages. simpl app.
       rewrite take_ge by lia. rewrite Nat.add_1_r. reflexivity. }
  apply (loop_until_short_page self scan_type scan_id
           (fun j => take 200 (drop (200 * j) detections)) tick
           k 0 [] 0 fuel net).
  - left. reflexivity.
  - intros j _. apply Hserves.
  - intros j Hj. simpl. unfold Py.len, page_size.
    rewrite length_take, length_drop. lia.
  - simpl. unfold Py.len, page_size.
    rewrite length_take, length_drop. lia.
  - exact Hfuel.
Qed.

Lemma loop_never_ends (self : ScanClient) scan_type scan_id pages tick :
  (forall j, serves self scan_type scan_id pages tick j) ->
  (forall j, Py.len (pages j) = page_size) ->
  forall fuel (n : nat) raw last net,
    (n = 0%nat \/ last = page_size) ->
    get_scan_raw_detections_loop fuel self scan_type scan_id raw (Z.of_nat n) last net = None.
Proof.
  intros Hserves Hfull fuel.
  induction fuel as [|fuel IH]; intros n raw last net Hfirst; [reflexivity|].
  cbn [ScanClient.get_scan_raw_detections_loop].
  assert ((Z.of_nat n =? 0) || (last =? page_size) = true) as ->.
  { destruct Hfirst as [-> | ->]; [reflexivity|].
    rewrite Z.eqb_refl. apply orb_true_r. }
  rewrite (Hserves n net).
  replace (Z.of_nat n + 1) with (Z.of_nat (S n)) by lia.
  apply IH. right. apply Hfull.
Qed.

(** X21. The loop has no page limit: against a server that answers every
    page with exactly 200 items it is still asking for pages whatever the
    number of iterations allowed. *)
Theorem raw_detections_unbounded_on_full_pages (self : ScanClient)
    (scan_type scan_id : string) (pages : nat -> list RawDetection)
    (tick : Net -> Net) (fuel : nat) (net : Net) :
  (forall j, serves self scan_type scan_id pages tick j) ->
  (forall j, Py.len (pages j) = 200) ->
  get_scan_raw_detections fuel self scan_type scan_id net = None.
Proof.
  intros Hserves Hfull. unfold ScanClient.get_scan_raw_detections.
  apply (loop_never_ends self scan_type scan_id pages tick Hserves Hfull
           fuel 0 [] 0 net).
  left. reflexivity.
Qed.

Lemma loop_raises (self : ScanClient) scan_type scan_id pages tick e net' :
  forall (k n : nat) raw last fuel net,
    (n = 0%nat \/ last = page_size) ->
    (forall j, (j < k)%nat -> serves self scan_type scan_id pages tick (n + j)) ->
    (forall j, (j < k)%nat -> Py.len (pages (n + j)%nat) = page_size) ->
    get_json (scan_cycode_client self)
      (detections_request self scan_type scan_id (Z.of_nat (n + k))) (Nat.iter k tick net)
    = (Raise e, net') ->
    (k < fuel)%nat ->
    get_scan_raw_detections_loop fuel self scan_type scan_id raw (Z.of_nat n) last net
    = Some (Raise e, net').
Proof.
  induction k as [|k IH]; intros n raw last fuel net Hfirst Hserves Hfull Hraise Hfuel;
    (destruct fuel as [|fuel]; [lia|]);
    cbn [ScanClient.get_scan_raw_detections_loop];
    (assert ((Z.of_nat n =? 0) || (last =? page_size) = true) as ->;
     [destruct Hfirst as [-> | ->];
      [reflexivity | rewrite Z.eqb_refl; apply orb_true_r]|]).
  - rewrite Nat.add_0_r in Hraise. simpl in Hraise. rewrite Hraise. reflexivity.
  - pose proof (Hserves 0%nat ltac:(lia) net) as Hget.
    rewrite Nat.add_0_r in Hget. rewrite Hget.
    replace (Z.of_nat n + 1) with (Z.of_nat (S n)) by lia.
    apply (IH (S n)).
    + right. specialize (Hfull 0%nat ltac:(lia)).
      rewrite Nat.add_0_r in Hfull. exact Hfull.
    + intros j Hj. replace (S n + j)%nat with (n + S j)%nat by lia.
      apply Hserves. lia.
    + intros j Hj. replace (S n + j)%nat with (n + S j)%nat by lia.
      apply Hfull. lia.
    + replace (S n + k)%nat with (n + S k)%nat by lia.
      rewrite <- Nat.iter_succ_r. exact Hraise.
    + lia.
Qed.

(** X22. When the request for a page raises after full pages, the function
    raises the same exception and the detections of the earlier pages are
    lost. *)
Theorem raw_detections_raise_on_failed_page (self : ScanClient)
    (scan_type scan_id : string) (pages : nat -> list RawDetection)
    (tick : Net -> Net) (k fuel : nat) (net net' : Net) (e : Py.exn) :
  (forall j, (j < k)%nat -> serves self scan_type scan_id pages tick j) ->
  (forall j, (j < k)%nat -> Py.len (pages j) = 200) ->
  get_json (scan_cycode_client self)
    (detections_request self scan_type scan_id (Z.of_nat k)) (Nat.iter k tick net)
  = (Raise e, net') ->
  (k < fuel)%nat ->
  get_scan_raw_detections fuel self scan_type scan_id net = Some (Raise e, net').
Proof.
  intros Hserves Hfull Hraise Hfuel. unfold ScanClient.get_scan_raw_detections.
  apply (loop_raises self scan_type scan_id pages tick e net' k 0 [] 0 fuel net);
    auto.
Qed.

End ClientPagination.

Lemma raw_detections_stop_at_short_page_witness :
  ScanClient.get_scan_raw_detections "iac" (fun _ => "detections")
    (example_server (seq 0 450)) 4 example_client "secret" "scan-1" 0%nat
  = Some (Ok (concat ((fun j => take 200 (drop (200 * j) (seq 0 450)))
                      <$> seq 0 3)),
          Nat.iter 3 S 0%nat).
Proof.
  apply (raw_detections_stop_at_short_page "iac" (fun _ => "detections")
           (example_server (seq 0 450)) example_client "secret" "scan-1"
           (fun j => take 200 (drop (200 * j) (seq 0 450))) S 2 4 0%nat).
  - intros j _ net. unfold example_server. simpl.
    rewrite Nat2Z.id. reflexivity.
  - intros j Hj. destruct j as [|[|j]]; [vm_compute; reflexivity ..|lia].
  - vm_compute. discriminate.
  - lia.
Defined.

Lemma raw_detections_collects_all_pages_witness :
  ScanClient.get_scan_raw_detections "iac" (fun _ => "detections")
    (example_server (seq 0 400)) 4 example_client "secret" "scan-1" 0%nat
  = Some (Ok (seq 0 400), Nat.iter (length (seq 0 400) / 200 + 1) S 0%nat).
Proof.
  apply (raw_detections_collects_all_pages "iac" (fun _ => "detections")
           (example_server (seq 0 400)) example_client "secret" "scan-1"
           (seq 0 400) S 4 0%nat).
  - intros j net. unfold example_server. simpl.
    rewrite Nat2Z.id. reflexivity.
  - apply Nat.leb_le. vm_compute. reflexivity.
Defined.

Lemma raw_detections_unbounded_on_full_pages_witness :
  ScanClient.get_scan_raw_detections "iac" (fun _ => "detections")
    example_endless_server 1000 example_client "secret" "scan-1" 0%nat
  = None.
Proof.
  apply (raw_detections_unbounded_on_full_pages "iac" (fun _ => "detections")
           example_endless_server example_client "secret" "scan-1"
           (fun _ => repeat 0%nat 200) S 1000 0%nat).
  - intros j net. reflexivity.
  - intros j. vm_compute. reflexivity.
Defined.

Lemma raw_detections_raise_on_failed_page_witness :
  ScanClient.get_scan_raw_detections "iac" (fun _ => "detections")
    example_failing_server 5 example_client "secret" "scan-1" 0%nat
  = Some (Raise (Py.OtherError "ConnectionError"), 2%nat).
Proof.
  apply (raw_detections_raise_on_failed_page "iac" (fun _ => "detections")
           example_failing_server example_client "secret" "scan-1"
           (fun _ => repeat 0%nat 200) S 1 5 0%nat 2%nat
           (Py.OtherError "ConnectionError")).
  - intros j Hj net. assert (j = 0%nat) as -> by lia. reflexivity.
  - intros j Hj. vm_compute. reflexivity.
  - reflexivity.
  - lia.
Defined.

Section ClientSyncRepeated.

Import ScanClient.

Context {JsonValue Response Net ScanResultsSyncFlow : Type}.
Context (json_dumps : gmap string JsonValue -> string).
Context (INFRA_CONFIGURATION_SCAN_TYPE SECRET_SCAN_TYPE : string).
Context (get_sync_scan_timeout_in_seconds : Z).
Context (load_sync_flow : Response -> Py.result ScanResultsSyncFlow).

Local Abbreviation call := (zipped_file_scan_sync json_dumps
  INFRA_CONFIGURATION_SCAN_TYPE SECRET_SCAN_TYPE
  get_sync_scan_timeout_in_seconds load_sync_flow).
Local Abbreviation request := (sync_request json_dumps
  INFRA_CONFIGURATION_SCAN_TYPE SECRET_SCAN_TYPE
  get_sync_scan_timeout_in_seconds).

(** X23. The synchronous scan leaves the dictionary of its caller as it was
    exactly when the dictionary has no key ['report']; and a second call on
    the dictionary left by a first one changes nothing more and posts the
    same [scan_parameters]. *)
Theorem zipped_file_scan_sync_twice (self : @ScanClient Response Net)
    (zip_file : Py.bytes) (scan_type : string)
    (scan_parameters : gmap string JsonValue) (is_git_diff : bool) (net : Net) :
  let first := call self zip_file scan_type scan_parameters is_git_diff net in
  let second := call self zip_file scan_type first.1.2 is_git_diff first.2 in
  (first.1.2 = scan_parameters <-> scan_parameters !! "report" = None)
  /\ second.1.2 = first.1.2
  /\ second.2
     = (post (scan_cycode_client self)
          (request self zip_file scan_type first.1.2 is_git_diff) first.2).2.
Proof.
  cbv zeta.
  rewrite (zipped_file_scan_sync_unfold json_dumps INFRA_CONFIGURATION_SCAN_TYPE
             SECRET_SCAN_TYPE get_sync_scan_timeout_in_seconds load_sync_flow
             self zip_file scan_type scan_parameters is_git_diff net).
  cbn [fst snd].
  rewrite zipped_file_scan_sync_unfold. cbn [fst snd].
  assert (delete "report" (delete "report" scan_parameters)
          = delete "report" scan_parameters) as Hagain.
  { apply delete_id. apply lookup_delete_eq. }
  rewrite Hagain. repeat split.
  - intros Hsame. rewrite <- Hsame. apply lookup_delete_eq.
  - intros Hnone. apply delete_id. exact Hnone.
Qed.

End ClientSyncRepeated.
